(** * Canvas-Agent: cross-source aggregation and temporal curation

    A shallow embedding of the decision logic of

    - [planners/daily-canvas-planner.py]
      ([get_canvas_all_items], [main], [filter_due_next_3_days],
      [is_major_test]) and
    - [study_guides/auto-study-guide-generator.py]
      ([clean_html], [get_modules_before_exam], [get_page_content],
      [get_quiz_questions], [get_all_content_before_exam]),

    together with the properties the specification states about them.

    Modelling conventions.
    - Python [str] values are [string]s (sequences of 8-bit characters);
      [str.lower] acts on the ASCII letters.
    - The decoded JSON records are typed records; an optional key is an
      [option] field, read with the default the source passes to [.get].
      The default only replaces a key that is absent: [points_possible]
      and [description], which Canvas sends as [null] for work without
      points or without a text, are [option]s of an [option], and the
      [None] that [.get] returns for a [null] stays in the dictionary.
    - A network sub-call is a value of type [reply]: either the call raised,
      or it answered with a status code and a decoded body.
    - [try]/[except] is the [option] monad inside the [try] body ([None] is
      "an exception was raised") and a [match] for the handler.
    - An aware [datetime] in the zone America/Los_Angeles is its wall-clock
      reading, counted in microseconds from 1970-01-01T00:00:00.  Python
      compares two aware datetimes that carry the same [tzinfo] by exactly
      this reading, and adds a [timedelta] to it. *)

From Stdlib Require Import ZArith QArith Lia Ascii Sorted.
From stdpp Require Import base option list strings gmap.

Local Open Scope Z_scope.

(** ** Python strings *)

Module PyStr.

(** [c.lower()] on one character. *)
Definition lower_ascii (c : ascii) : ascii :=
  let n := N_of_ascii c in
  if ((65 <=? n) && (n <=? 90))%N then ascii_of_N (n + 32) else c.

(** [s.lower()] *)
Fixpoint lower (s : string) : string :=
  match s with
  | EmptyString => EmptyString
  | String c s' => String (lower_ascii c) (lower s')
  end.

(** [s.startswith(k)] *)
Fixpoint startswith (k s : string) : bool :=
  match k, s with
  | EmptyString, _ => true
  | String a k', String b s' => bool_decide (a = b) && startswith k' s'
  | String _ _, EmptyString => false
  end.

(** [k in s]: a left-to-right search for an occurrence of [k]. *)
Fixpoint contains (k s : string) : bool :=
  startswith k s ||
  match s with
  | EmptyString => false
  | String _ s' => contains k s'
  end.

(** [any(k in s for k in ks)] *)
Definition contains_any (ks : list string) (s : string) : bool :=
  existsb (fun k => contains k s) ks.

(** [s[:n]] *)
Fixpoint slice_to (n : nat) (s : string) : string :=
  match n, s with
  | S n', String c s' => String c (slice_to n' s')
  | _, _ => EmptyString
  end.

(** Truth value of a string: [bool(s)]. *)
Definition nonempty (s : string) : bool :=
  match s with EmptyString => false | String _ _ => true end.

(** Truth value of the result of [d.get(key)] for a string-valued key:
    [None] and the empty string are falsy. *)
Definition truthy (o : option string) : bool :=
  match o with
  | Some s => nonempty s
  | None => false
  end.

(** [f"{o}"] for the result of [d.get(key)]: [None] prints as the text
    None. *)
Definition format_opt (o : option string) : string :=
  match o with
  | Some s => s
  | None => "None"
  end.

(** [a or b] on optional strings. *)
Definition or_else (a b : option string) : option string :=
  if truthy a then a else b.

(** Declarative reading of [k in s]. *)
Definition occurs_in (k s : string) : Prop :=
  exists pre post : string, s = pre +:+ k +:+ post.

(** The character [c] does not occur in [s]. *)
Fixpoint free_of (c : ascii) (s : string) : Prop :=
  match s with
  | EmptyString => True
  | String b s' => b <> c /\ free_of c s'
  end.

End PyStr.

(** ** Network sub-calls *)

(** The outcome of one [requests.get(...)] followed, when the source does
    so, by [.json()]: [Raised] when either raises, otherwise the status code
    and the decoded body. *)
Inductive reply (A : Type) : Type :=
  | Raised : reply A
  | Reply (status_code : Z) (json : A) : reply A.
Arguments Raised {A}.
Arguments Reply {A} status_code json.

(** ** Datetimes *)

Module Datetime.

(** Microseconds since 1970-01-01T00:00:00 on the wall clock. *)
Definition datetime : Type := Z.

Definition usec_per_sec : Z := 1000000.
Definition usec_per_hour : Z := 3600 * usec_per_sec.
Definition usec_per_day : Z := 24 * usec_per_hour.

(** [timedelta(days=d, hours=h)] *)
Definition timedelta (days hours : Z) : Z :=
  days * usec_per_day + hours * usec_per_hour.

(** [datetime.min] is 0001-01-01T00:00:00 and [datetime.max] is
    9999-12-31T23:59:59.999999. *)
Definition MINDT : datetime := (-719162) * usec_per_day.
Definition MAXDT : datetime := 2932897 * usec_per_day - 1.

(** [dt + delta]; Python raises [OverflowError] outside the representable
    range. *)
Definition add (dt : datetime) (delta : Z) : option datetime :=
  let r := dt + delta in
  if (MINDT <=? r) && (r <=? MAXDT) then Some r else None.

(** [dt.date()], as a day number. *)
Definition date (dt : datetime) : Z := dt / usec_per_day.

(** The two calls into Python's [datetime] and [zoneinfo] libraries that
    the repository relies on:
    - [strptime s] is [datetime.strptime(s, "%Y-%m-%dT%H:%M:%SZ")], the
      reading on the UTC clock, or [None] when the call raises;
    - [astimezone utc] is
      [utc.replace(tzinfo=timezone.utc).astimezone(pacific_tz)], or [None]
      when the call raises.
    Everything proved about the repository's functions holds for any such
    pair; [cpython] below is the pair used to run them. *)
Class Library : Type := {
  strptime : string -> option datetime;
  astimezone : datetime -> option datetime
}.

(** *** The proleptic Gregorian calendar *)

Definition is_leap (y : Z) : bool :=
  ((y mod 4 =? 0) && negb (y mod 100 =? 0)) || (y mod 400 =? 0).

Definition days_in_month (y m : Z) : Z :=
  if m =? 2 then (if is_leap y then 29 else 28)
  else if (m =? 4) || (m =? 6) || (m =? 9) || (m =? 11) then 30
  else 31.

(** Day number of the civil date [y-m-d] (day 0 is 1970-01-01). *)
Definition days_from_civil (y m d : Z) : Z :=
  let y' := if m <=? 2 then y - 1 else y in
  let era := y' / 400 in
  let yoe := y' - era * 400 in
  let doy := (153 * (if 2 <? m then m - 3 else m + 9) + 2) / 5 + d - 1 in
  let doe := yoe * 365 + yoe / 4 - yoe / 100 + doy in
  era * 146097 + doe - 719468.

(** Year of the civil date with day number [days]. *)
Definition year_of_days (days : Z) : Z :=
  let z := days + 719468 in
  let era := z / 146097 in
  let doe := z - era * 146097 in
  let yoe := (doe - doe / 1460 + doe / 36524 - doe / 146096) / 365 in
  let doy := doe - (365 * yoe + yoe / 4 - yoe / 100) in
  let mp := (5 * doy + 2) / 153 in
  yoe + era * 400 + (if mp <? 10 then 0 else 1).

(** The reading [y-m-d hh:mm:ss]. *)
Definition civil (y m d hh mm ss : Z) : datetime :=
  (((days_from_civil y m d * 24 + hh) * 60 + mm) * 60 + ss) * usec_per_sec.

(** Day number of the first Sunday on or after the first of month [m]. *)
Definition first_sunday (y m : Z) : Z :=
  let d1 := days_from_civil y m 1 in
  d1 + (7 - (d1 + 4) mod 7) mod 7.

(** *** [strptime] for the Canvas format *)

Definition digit (c : ascii) : option Z :=
  let n := Z.of_N (N_of_ascii c) in
  if (48 <=? n) && (n <=? 57) then Some (n - 48) else None.

(** A numeric directive: the digits up to the next other character, at
    least one and at most [width] of them. *)
Fixpoint number (width : nat) (acc : option Z) (s : string)
  : option (Z * string) :=
  match s with
  | String c s' =>
      match digit c, width with
      | Some d, S width' =>
          number width' (Some (10 * default 0 acc + d)) s'
      | Some _, O => None
      | None, _ => acc ≫= fun v => Some (v, s)
      end
  | EmptyString => acc ≫= fun v => Some (v, s)
  end.

(** The value read must lie in [lo..hi]. *)
Definition ranged (lo hi : Z) (r : option (Z * string)) : option (Z * string) :=
  r ≫= fun '(v, s) => if (lo <=? v) && (v <=? hi) then Some (v, s) else None.

(** A literal of the format; the library matches letters in either
    case. *)
Definition literal (c : ascii) (s : string) : option string :=
  match s with
  | String b s' =>
      if bool_decide (PyStr.lower_ascii b = PyStr.lower_ascii c) then Some s' else None
  | EmptyString => None
  end.

(** [%Y]: exactly four digits. *)
Definition year_directive (s : string) : option (Z * string) :=
  match s with
  | String a (String b (String c (String d s'))) =>
      a ← digit a; b ← digit b; c ← digit c; d ← digit d;
      Some (1000 * a + 100 * b + 10 * c + d, s')
  | _ => None
  end.

(** [%d]: one or two digits, or a blank and one digit. *)
Definition day_directive (s : string) : option (Z * string) :=
  match s with
  | String " " s' => ranged 1 9 (number 1 None s')
  | _ => ranged 1 31 (number 2 None s)
  end.

Definition strptime_canvas (s : string) : option datetime :=
  '(year, s) ← year_directive s;
  s ← literal "-" s;
  '(month, s) ← ranged 1 12 (number 2 None s);
  s ← literal "-" s;
  '(day, s) ← day_directive s;
  s ← literal "T" s;
  '(hour, s) ← ranged 0 23 (number 2 None s);
  s ← literal ":" s;
  '(minute, s) ← ranged 0 59 (number 2 None s);
  s ← literal ":" s;
  '(second, s) ← ranged 0 61 (number 2 None s);
  s ← literal "Z" s;
  if PyStr.nonempty s then None
  else if (1 <=? year) && (day <=? days_in_month year month) && (second <=? 59)
  then Some (civil year month day hour minute second)
  else None.

(** *** America/Los_Angeles *)

(** Offset from UTC at the instant [utc], by the rule in force since 2007:
    daylight time from 10:00 UTC on the second Sunday of March to 09:00 UTC
    on the first Sunday of November.  (For earlier years the time zone
    database lists other transition days; standard time is used there.) *)
Definition pacific_utcoffset (utc : datetime) : Z :=
  let y := year_of_days (utc / usec_per_day) in
  let dst_start := (first_sunday y 3 + 7) * usec_per_day + 10 * usec_per_hour in
  let dst_end := first_sunday y 11 * usec_per_day + 9 * usec_per_hour in
  if (2007 <=? y) && (dst_start <=? utc) && (utc <? dst_end)
  then (-7) * usec_per_hour
  else (-8) * usec_per_hour.

Definition astimezone_pacific (utc : datetime) : option datetime :=
  add utc (pacific_utcoffset utc).

Definition cpython : Library :=
  {| strptime := strptime_canvas; astimezone := astimezone_pacific |}.

End Datetime.

(** ** The daily planner: [planners/daily-canvas-planner.py] *)

Module Planner.
Import PyStr Datetime.

(** The dictionary the collector builds for each work item.  The last two
    keys are attached later, by [filter_due_next_3_days].
    [points_possible] and [description] are [None] when Canvas sent
    [null]. *)
Record Assignment : Type := {
  name : string;
  due_at : option string;
  points_possible : option Q;
  course_name : string;
  html_url : string;
  description : option string;
  due_datetime_parsed : option datetime;
  due_date_parsed : option Z
}.

(** One element of the planner view, with the keys of its [plannable].
    For [points_possible] and [description], [None] is an absent key and
    [Some None] is [null]. *)
Record PlannerItem : Type := {
  plannable_title : option string;
  plannable_points_possible : option (option Q);
  plannable_html_url : option string;
  plannable_description : option (option string);
  plannable_date : option string;
  context_name : option string
}.

(** One element of the course list. *)
Record Course : Type := {
  course_id : option Z;
  course_workflow_state : option string;
  course_title : option string
}.

(** One element of a course's assignment list.  For [points_possible]
    and [description], [None] is an absent key and [Some None] is [null]. *)
Record RawAssignment : Type := {
  raw_name : option string;
  raw_due_at : option string;
  raw_points_possible : option (option Q);
  raw_html_url : option string;
  raw_description : option (option string)
}.

(** What one configured Canvas instance answers to the three kinds of
    request the collector sends. *)
Record Instance : Type := {
  planner_response : reply (list PlannerItem);
  courses_response : reply (list Course);
  assignments_response : Z -> reply (list RawAssignment)
}.

(** *** [is_major_test] *)

Definition major_keywords : list string :=
  ["midterm"; "final exam"; "final test"; "midterm exam"].

(** [points >= 50], evaluated only after ['exam' in name]: on [None] the
    comparison raises [TypeError]. *)
Definition at_least_50 (points : option Q) : option bool :=
  match points with
  | Some points => Some (Qle_bool (inject_Z 50) points)
  | None => None
  end.

(** The result is [None] when the function raises.  The description goes
    through [str], which prints [None] as the text None. *)
Definition is_major_test (assignment : Assignment) : option bool :=
  let name := lower (name assignment) in
  let description := lower (format_opt (description assignment)) in
  if contains_any major_keywords name then Some true
  else
    (if contains "exam" name then at_least_50 (points_possible assignment)
     else Some false) ≫= fun high_value : bool =>
    if high_value then Some true
    else if contains "respondus" description
            || contains "lockdown browser" description then Some true
    else Some false.

(** *** [get_canvas_all_items] *)

(** [item_key = f"{assignment['name']}_{assignment['due_at']}"] *)
Definition item_key (a : Assignment) : string :=
  name a +:+ "_" +:+ format_opt (due_at a).

(** The pair [(all_items, seen_items)] the function threads through both
    retrieval methods. *)
Record collector : Type := {
  all_items : list Assignment;
  seen_items : gset string
}.

Definition fresh : collector := {| all_items := []; seen_items := ∅ |}.

(** [if item_key not in seen_items: seen_items.add(item_key);
    all_items.append(assignment)] *)
Definition add_item (st : collector) (a : Assignment) : collector :=
  if decide (item_key a ∈ seen_items st) then st
  else {| all_items := all_items st ++ [a];
          seen_items := {[ item_key a ]} ∪ seen_items st |}.

(** The dictionary built from a planner item. *)
Definition of_planner (item : PlannerItem) : Assignment :=
  {| name := default "Unnamed" (plannable_title item);
     due_at := plannable_date item;
     points_possible := default (Some (inject_Z 0)) (plannable_points_possible item);
     course_name := default "Unknown" (context_name item);
     html_url := default "#" (plannable_html_url item);
     description := default (Some "") (plannable_description item);
     due_datetime_parsed := None;
     due_date_parsed := None |}.

(** The dictionary built from a course assignment. *)
Definition of_assignment (course : Course) (a : RawAssignment) : Assignment :=
  {| name := default "Unnamed" (raw_name a);
     due_at := raw_due_at a;
     points_possible := default (Some (inject_Z 0)) (raw_points_possible a);
     course_name := default "Unknown" (course_title course);
     html_url := default "#" (raw_html_url a);
     description := default (Some "") (raw_description a);
     due_datetime_parsed := None;
     due_date_parsed := None |}.

(** Method 1: the planner view. *)
Definition planner_method (r : reply (list PlannerItem)) (st : collector)
  : option collector :=
  match r with
  | Raised => None
  | Reply code planner_items =>
      if code =? 200
      then Some (foldl (fun st item => add_item st (of_planner item)) st planner_items)
      else Some st
  end.

(** The loop over one course's assignments. *)
Definition assignments_loop (course : Course) (st : collector)
    (course_assignments : list RawAssignment) : collector :=
  foldl (fun st a =>
           if truthy (raw_due_at a) then add_item st (of_assignment course a)
           else st)
        st course_assignments.

(** [workflow_state in ['completed', 'deleted']] *)
Definition old_course (course : Course) : bool :=
  let workflow_state := default "" (course_workflow_state course) in
  bool_decide (workflow_state = "completed")
  || bool_decide (workflow_state = "deleted").

(** The loop over the courses. *)
Fixpoint courses_loop (fetch : Z -> reply (list RawAssignment))
    (courses : list Course) (st : collector) : option collector :=
  match courses with
  | [] => Some st
  | course :: rest =>
      match course_id course with
      | None => courses_loop fetch rest st
      | Some id =>
          if old_course course then courses_loop fetch rest st
          else
            match fetch id with
            | Raised => None
            | Reply code course_assignments =>
                if code =? 200
                then courses_loop fetch rest
                       (assignments_loop course st course_assignments)
                else courses_loop fetch rest st
            end
      end
  end.

(** Method 2: the enumeration of every active course's assignments. *)
Definition assignments_method (i : Instance) (st : collector)
  : option collector :=
  match courses_response i with
  | Raised => None
  | Reply code courses =>
      if code =? 200
      then courses_loop (assignments_response i) courses st
      else Some st
  end.

(** The body of the [try] block. *)
Definition collect (i : Instance) : option collector :=
  st ← planner_method (planner_response i) fresh;
  assignments_method i st.

Definition get_canvas_all_items (i : Instance) : list Assignment :=
  match collect i with
  | Some st => all_items st
  | None => []
  end.

(** The aggregation loop of [main]:
    [all_assignments.extend(get_canvas_all_items(...))] per instance. *)
Definition all_assignments (instances : list Instance) : list Assignment :=
  foldl (fun acc i => acc ++ get_canvas_all_items i) [] instances.

(** *** [filter_due_next_3_days] *)

(** [list.sort(key=...)] is a stable sort: among the sorted permutations
    of the list it is the one that keeps elements with equal keys in their
    original order.  Insertion from the right computes it. *)
Fixpoint insert_by {A : Type} (key : A -> Z) (x : A) (l : list A) : list A :=
  match l with
  | [] => [x]
  | y :: l' => if key x <=? key y then x :: l else y :: insert_by key x l'
  end.

Definition sort_by {A : Type} (key : A -> Z) (l : list A) : list A :=
  foldr (insert_by key) [] l.

Section Classifier.
Context {L : Library}.

(** [assignment['due_datetime_parsed'] = ...;
    assignment['due_date_parsed'] = ...] *)
Definition enrich (assignment : Assignment) (due_datetime_pacific : datetime)
  : Assignment :=
  {| name := name assignment;
     due_at := due_at assignment;
     points_possible := points_possible assignment;
     course_name := course_name assignment;
     html_url := html_url assignment;
     description := description assignment;
     due_datetime_parsed := Some due_datetime_pacific;
     due_date_parsed := Some (date due_datetime_pacific) |}.

(** The first two statements of the [try] block: parse as UTC, convert
    to Pacific time. *)
Definition to_pacific (s : string) : option datetime :=
  due_datetime_utc ← strptime s;
  astimezone due_datetime_utc.

(** The body of the [try] block for an assignment whose [due_at] is the
    string [s]: [None] when a statement raises, otherwise what is
    appended to [due_soon], if anything. *)
Definition try_classify (now cutoff_datetime : datetime)
    (assignment : Assignment) (s : string) : option (option Assignment) :=
  due_datetime_pacific ← to_pacific s;
  if due_datetime_pacific <? now then Some None
  else if due_datetime_pacific <=? cutoff_datetime
  then Some (Some (enrich assignment due_datetime_pacific))
  else Some None.

(** One iteration of the loop: what it appends to [due_soon]. *)
Definition classify (now cutoff_datetime : datetime)
    (assignment : Assignment) : option Assignment :=
  match due_at assignment with
  | None => None
  | Some s =>
      if negb (nonempty s) then None
      else
        match try_classify now cutoff_datetime assignment s with
        | Some appended => appended
        | None => None
        end
  end.

(** The key of the final sort; every element of [due_soon] carries it. *)
Definition sort_key (a : Assignment) : Z := default 0 (due_datetime_parsed a).

(** [now] is the reading of [datetime.now(pacific_tz)].  The result is
    [None] when the function raises, which only the computation of the
    cutoff, outside the [try] block, can do. *)
Definition filter_due_next_3_days (now : datetime)
    (assignments : list Assignment) : option (list Assignment) :=
  cutoff_datetime ← add now (timedelta 3 12);
  Some (sort_by sort_key (omap (classify now cutoff_datetime) assignments)).

End Classifier.

End Planner.

(** ** The study-guide generator:
    [study_guides/auto-study-guide-generator.py] *)

Module StudyGuide.
Import PyStr Datetime.

(** *** [clean_html] *)

(** White space in the sense of [\s] and of [str.strip()], on ASCII. *)
Definition is_space (c : ascii) : bool :=
  let n := N_of_ascii c in
  (((9 <=? n) && (n <=? 13)) || ((28 <=? n) && (n <=? 32)))%N.

(** After an opening bracket and one further character: the number of
    characters up to and including the first closing bracket, provided no
    opening bracket comes before it. *)
Fixpoint tag_rest (s : string) : option nat :=
  match s with
  | EmptyString => None
  | String c s' =>
      if bool_decide (c = ">"%char) then Some 1%nat
      else if bool_decide (c = "<"%char) then None
      else S <$> tag_rest s'
  end.

(** Length of the match of the pattern [<[^<]+?>] at the start of [s], if
    there is one. *)
Definition tag_length (s : string) : option nat :=
  match s with
  | String "<" (String c s') =>
      if bool_decide (c = "<"%char) then None
      else (fun n => S (S n)) <$> tag_rest s'
  | _ => None
  end.

(** [re.sub('<[^<]+?>', '', text)]; [skip] counts the characters of the
    current match still to be dropped. *)
Fixpoint remove_tags (skip : nat) (s : string) : string :=
  match s with
  | EmptyString => EmptyString
  | String c s' =>
      match skip with
      | S k => remove_tags k s'
      | O =>
          match tag_length s with
          | Some (S k) => remove_tags k s'
          | _ => String c (remove_tags O s')
          end
      end
  end.

(** [re.sub(r'\s+', ' ', clean)]; [in_run] tells that the previous
    character was white space. *)
Fixpoint collapse_spaces (in_run : bool) (s : string) : string :=
  match s with
  | EmptyString => EmptyString
  | String c s' =>
      if is_space c
      then (if in_run then collapse_spaces true s'
            else String " " (collapse_spaces true s'))
      else String c (collapse_spaces false s')
  end.

Fixpoint lstrip (s : string) : string :=
  match s with
  | String c s' => if is_space c then lstrip s' else s
  | EmptyString => EmptyString
  end.

Fixpoint rstrip (s : string) : string :=
  match s with
  | String c s' =>
      let r := rstrip s' in
      if is_space c && negb (nonempty r) then EmptyString else String c r
  | EmptyString => EmptyString
  end.

Definition strip (s : string) : string := rstrip (lstrip s).

Definition clean_html (text : option string) : string :=
  match text with
  | None => ""
  | Some text =>
      if negb (nonempty text) then ""
      else strip (collapse_spaces false (remove_tags O text))
  end.

(** *** Records of the Canvas API *)

(** One entry of a module's [items]. *)
Record Item : Type := {
  item_type : option string;
  item_title : option string;
  item_url : option string;
  item_html_url : option string;
  item_page_url : option string;
  item_content_id : option Z
}.

(** One content module, as listed with [include[]=items]. *)
Record ContentModule : Type := {
  module_name : option string;
  module_unlock_at : option string;
  module_items : list Item
}.

Record Page : Type := {
  page_title : option string;
  page_body : option string
}.

Record AssignmentBody : Type := {
  assignment_name : option string;
  assignment_description : option string
}.

Record Discussion : Type := {
  discussion_title : option string;
  discussion_message : option string
}.

(** What a course answers to the requests of the curator: the module
    list, a page by slug, an assignment and a discussion topic by the
    [content_id] of the module item. *)
Record CourseSite : Type := {
  modules_response : reply (list ContentModule);
  page_response : string -> reply Page;
  assignment_response : option Z -> reply AssignmentBody;
  discussion_response : option Z -> reply Discussion
}.

(** One element of [all_content]. *)
Record Content : Type := {
  content_type : string;
  content_module : string;
  content_title : string;
  content_text : string
}.

(** *** [get_modules_before_exam] *)

Definition exclude_keywords : list string :=
  ["course essentials"; "microsoft teams"; "library research";
   "library guide"; "instruction guide"; "getting started"; "syllabus";
   "resources"; "how to"; "orientation"].

Definition week_indicators : list string :=
  ["week"; "chapter"; "ch "; "module"].

Section Curator.
Context {L : Library}.

(** The inner [try] block for a module whose [unlock_at] is the string
    [s]: [None] when a statement raises, otherwise whether the module is
    appended.  [exam_date] is the Pacific-time deadline of the exam. *)
Definition try_unlocked_before (exam_date : datetime) (s : string)
  : option bool :=
  unlock_date_utc ← strptime s;
  unlock_date_pacific ← astimezone unlock_date_utc;
  Some (unlock_date_pacific <? exam_date).

(** One iteration of the loop over [all_modules]: is the module appended
    to [modules_before_exam]? *)
Definition module_selected (exam_date : datetime) (module : ContentModule)
  : bool :=
  let module_name := lower (default "" (module_name module)) in
  if contains_any exclude_keywords module_name then false
  else
    match module_unlock_at module with
    | Some s =>
        if nonempty s
        then match try_unlocked_before exam_date s with
             | Some appended => appended
             | None => false
             end
        else contains_any week_indicators module_name
    | None => contains_any week_indicators module_name
    end.

Definition get_modules_before_exam (r : reply (list ContentModule))
    (exam_date : datetime) : list ContentModule :=
  match r with
  | Raised => []
  | Reply code all_modules =>
      if code =? 200 then filter (fun m => module_selected exam_date m = true) all_modules
      else []
  end.

End Curator.

(** *** [get_page_content] *)

(** [page_url.split('/')[-1]] *)
Fixpoint last_segment (s : string) : string :=
  match s with
  | EmptyString => EmptyString
  | String c s' =>
      if bool_decide (c = "/"%char) || contains "/" s' then last_segment s'
      else s
  end.

(** The result is [None] both when the request does not answer 200 and
    when it raises. *)
Definition get_page_content (site : CourseSite) (page_url : string)
  : option (string * string) :=
  let page_slug := last_segment page_url in
  match page_response site page_slug with
  | Raised => None
  | Reply code page_data =>
      if code =? 200
      then Some (default "Untitled" (page_title page_data),
                 clean_html (page_body page_data))
      else None
  end.

(** *** [get_all_content_before_exam] *)

(** What one module item appends to [all_content]. *)
Definition item_content (site : CourseSite) (module_name : string)
    (item : Item) : list Content :=
  let item_title := default "Item" (item_title item) in
  if bool_decide (item_type item = Some "Page") then
    let page_url := or_else (item_url item) (Some (default "" (item_html_url item))) in
    if truthy page_url then
      match get_page_content site (default "" page_url) with
      | Some (title, content) =>
          if nonempty content
          then [ {| content_type := "Page"; content_module := module_name;
                    content_title := title; content_text := content |} ]
          else []
      | None => []
      end
    else []
  else if bool_decide (item_type item = Some "Assignment") then
    if truthy (item_page_url item) then
      match assignment_response site (item_content_id item) with
      | Raised => []
      | Reply code assignment =>
          if code =? 200 then
            let description := clean_html (assignment_description assignment) in
            if nonempty description
            then [ {| content_type := "Assignment"; content_module := module_name;
                      content_title := default item_title (assignment_name assignment);
                      content_text := description |} ]
            else []
          else []
      end
    else []
  else if bool_decide (item_type item = Some "Discussion") then
    match discussion_response site (item_content_id item) with
    | Raised => []
    | Reply code discussion =>
        if code =? 200 then
          let message := clean_html (discussion_message discussion) in
          if nonempty message
          then [ {| content_type := "Discussion"; content_module := module_name;
                    content_title := default item_title (discussion_title discussion);
                    content_text := message |} ]
          else []
        else []
    end
  else [].

(** The loop over the items of one module. *)
Definition module_content (site : CourseSite) (module : ContentModule)
    (all_content : list Content) : list Content :=
  let module_name := default "Module" (module_name module) in
  foldl (fun all_content item => all_content ++ item_content site module_name item)
        all_content (module_items module).

(** The loop over the selected modules. *)
Definition content_of_modules (site : CourseSite) (modules : list ContentModule)
  : list Content :=
  foldl (fun all_content module => module_content site module all_content)
        [] modules.

Definition get_all_content_before_exam {L : Library} (site : CourseSite)
    (exam_date : datetime) : list Content :=
  let modules := get_modules_before_exam (modules_response site) exam_date in
  content_of_modules site modules.

(** *** The question loop of [get_quiz_questions] *)

(** One element of [quiz_submission_questions]; [question_answers] lists
    the [text] key of each answer. *)
Record Question : Type := {
  question_text : option string;
  question_type : option string;
  question_answers : list (option string)
}.

(** One element of [all_quiz_questions]. *)
Record QuizQuestion : Type := {
  qq_quiz : string;
  qq_question : string;
  qq_type : string;
  qq_attempt : Z
}.

(** [" | ".join(l)] *)
Fixpoint join_bar (l : list string) : string :=
  match l with
  | [] => ""
  | [x] => x
  | x :: l' => x +:+ " | " +:+ join_bar l'
  end.

Definition newline : string := String (ascii_of_N 10) EmptyString.

Definition answers_info (q : Question) : string :=
  let question_type := default "" (question_type q) in
  if bool_decide (question_answers q <> [])
     && (bool_decide (question_type = "multiple_choice_question")
         || bool_decide (question_type = "true_false_question"))
  then
    let answer_texts :=
      (fun a => clean_html a) <$> filter (fun a => truthy a = true) (question_answers q) in
    if bool_decide (answer_texts <> [])
    then newline +:+ "   Options: " +:+ join_bar (take 5 answer_texts)
    else ""
  else "".

(** [any(q['question'][:100] == question_key for q in all_quiz_questions)] *)
Definition already_listed (question_key : string)
    (all_quiz_questions : list QuizQuestion) : bool :=
  existsb (fun q => bool_decide (slice_to 100 (qq_question q) = question_key))
          all_quiz_questions.

(** One iteration of the loop over [questions_list]. *)
Definition add_question (quiz_title : string) (attempt_num : Z)
    (all_quiz_questions : list QuizQuestion) (q : Question)
  : list QuizQuestion :=
  let text := clean_html (question_text q) in
  if nonempty text then
    let question_key := slice_to 100 text in
    if negb (already_listed question_key all_quiz_questions)
    then all_quiz_questions ++
           [ {| qq_quiz := quiz_title;
                qq_question := text +:+ answers_info q;
                qq_type := default "" (question_type q);
                qq_attempt := attempt_num |} ]
    else all_quiz_questions
  else all_quiz_questions.

End StudyGuide.

(** ** The vocabulary of the properties

    The identity key, the importance rule and the inclusion rule below
    follow the wording of the specification; the theorems compare them with
    the functions of the source.  The other definitions name what the
    theorems speak about: the records an instance offers to the merge, an
    instance with failed sub-calls read as empty, an instance with one record
    removed. *)

Module Policy.
Import PyStr Datetime Planner StudyGuide.

(** The identity key of a work item: its name and its [due_at] as the
    source gave them. *)
Definition identity (a : Assignment) : string * option string :=
  (name a, due_at a).

(** The two components of the collector agree: [seen_items] holds exactly
    the keys of [all_items], each once. *)
Definition collector_ok (st : collector) : Prop :=
  NoDup (item_key <$> all_items st)
  /\ forall k, k ∈ seen_items st <-> k ∈ item_key <$> all_items st.

(** The records the planner view offers to the merge, in order. *)
Definition planner_records (i : Instance) : list Assignment :=
  match planner_response i with
  | Reply code planner_items =>
      if code =? 200 then of_planner <$> planner_items else []
  | Raised => []
  end.

(** The records one course offers to the merge, in order. *)
Definition course_records (i : Instance) (course : Course) : list Assignment :=
  match course_id course with
  | Some id =>
      if old_course course then []
      else
        match assignments_response i id with
        | Reply code course_assignments =>
            if code =? 200
            then of_assignment course
                 <$> filter (fun a => truthy (raw_due_at a) = true) course_assignments
            else []
        | Raised => []
        end
  | None => []
  end.

(** The records the course enumeration offers to the merge, in order. *)
Definition enumeration_records (i : Instance) : list Assignment :=
  match courses_response i with
  | Reply code courses =>
      if code =? 200 then concat (course_records i <$> courses) else []
  | Raised => []
  end.

(** All records of one instance, in the order in which the collector meets
    them: the planner view first. *)
Definition records (i : Instance) : list Assignment :=
  planner_records i ++ enumeration_records i.

(** A [due_at] that is absent, or a text without underscore other than the
    word None; every timestamp [YYYY-MM-DDTHH:MM:SSZ] is of this kind. *)
Definition plain_due (o : option string) : Prop :=
  match o with
  | Some s => free_of "_"%char s /\ s <> "None"
  | None => True
  end.

(** A major phrase occurs in the lower-cased name. *)
Definition major_phrase (a : Assignment) : Prop :=
  let n := lower (name a) in
  occurs_in "midterm" n \/ occurs_in "final exam" n
  \/ occurs_in "final test" n \/ occurs_in "midterm exam" n.

(** The importance rule: a major phrase in the name; or "exam" in the name
    and at least 50 points; or a proctoring tool in the description.  As
    in the specification's data model, points and description that the
    source did not give are 0 and the empty text. *)
Definition major_policy (a : Assignment) : Prop :=
  let n := lower (name a) in
  let d := lower (default "" (description a)) in
  major_phrase a
  \/ (occurs_in "exam" n
      /\ (inject_Z 50 <= default (inject_Z 0) (points_possible a))%Q)
  \/ (occurs_in "respondus" d \/ occurs_in "lockdown browser" d).

(** The inclusion rule of the curator for one container and a cutoff. *)
Definition curator_policy {L : Library} (cutoff_instant : datetime)
    (m : ContentModule) : Prop :=
  let n := lower (default "" (module_name m)) in
  ~ (exists k, k ∈ exclude_keywords /\ occurs_in k n)
  /\ ((exists s unlock,
         module_unlock_at m = Some s /\ nonempty s = true
         /\ to_pacific s = Some unlock /\ unlock < cutoff_instant)
      \/ (truthy (module_unlock_at m) = false
          /\ exists k, k ∈ week_indicators /\ occurs_in k n)).

(** A sub-call that answered with a status other than 200, read as an
    empty result. *)
Definition degrade {A : Type} (r : reply (list A)) : reply (list A) :=
  match r with
  | Raised => Raised
  | Reply code body => if code =? 200 then r else Reply 200 []
  end.

Definition degraded (i : Instance) : Instance :=
  {| planner_response := degrade (planner_response i);
     courses_response := degrade (courses_response i);
     assignments_response := fun id => degrade (assignments_response i id) |}.

(** Some sub-call that the collector reaches raises. *)
Definition raises (i : Instance) : Prop :=
  planner_response i = Raised
  \/ courses_response i = Raised
  \/ exists courses course id,
       courses_response i = Reply 200 courses
       /\ course ∈ courses
       /\ course_id course = Some id
       /\ old_course course = false
       /\ assignments_response i id = Raised.

(** The instance [i] with one record removed from a course's assignment
    list. *)
Definition without_record (i : Instance) (id : Z)
    (code : Z) (l1 l2 : list RawAssignment) : Instance :=
  {| planner_response := planner_response i;
     courses_response := courses_response i;
     assignments_response := fun id' =>
       if bool_decide (id' = id) then Reply code (l1 ++ l2)
       else assignments_response i id' |}.

End Policy.

(** ** Sample data *)

Module Examples.
Import PyStr Datetime Planner StudyGuide Policy.

(** "Essay 1" as the planner view lists it. *)
Definition essay_1 : PlannerItem :=
  {| plannable_title := Some "Essay 1";
     plannable_points_possible := Some (Some (inject_Z 100));
     plannable_html_url := Some "https://canvas.example.edu/courses/7/assignments/1";
     plannable_description := Some (Some "<p>Planner text</p>");
     plannable_date := Some "2026-02-01T23:59:00Z";
     context_name := Some "WR 121" |}.

(** "Essay 1" as the course enumeration lists it. *)
Definition essay_1_raw : RawAssignment :=
  {| raw_name := Some "Essay 1";
     raw_due_at := Some "2026-02-01T23:59:00Z";
     raw_points_possible := Some (Some (inject_Z 100));
     raw_html_url := None;
     raw_description := Some (Some "<p>Enumeration text</p>") |}.

(** An assignment without a deadline. *)
Definition reading : RawAssignment :=
  {| raw_name := Some "Reading log";
     raw_due_at := None;
     raw_points_possible := None;
     raw_html_url := None;
     raw_description := None |}.

Definition wr121 : Course :=
  {| course_id := Some 7;
     course_workflow_state := Some "available";
     course_title := Some "WR 121" |}.

(** An instance that lists "Essay 1" under both retrieval methods. *)
Definition campus : Instance :=
  {| planner_response := Reply 200 [essay_1];
     courses_response := Reply 200 [wr121];
     assignments_response := fun _ => Reply 200 [essay_1_raw; reading] |}.

(** A second instance that lists "Essay 1" in its course enumeration. *)
Definition extension : Instance :=
  {| planner_response := Reply 200 [];
     courses_response := Reply 200 [wr121];
     assignments_response := fun _ => Reply 200 [essay_1_raw] |}.

(** An instance whose course list cannot be fetched. *)
Definition outage : Instance :=
  {| planner_response := Reply 200 [essay_1];
     courses_response := Raised;
     assignments_response := fun _ => Raised |}.

Definition work (n : string) (due : option string) (points : Z) (descr : string)
  : Assignment :=
  {| name := n; due_at := due; points_possible := Some (inject_Z points);
     course_name := "WR 121"; html_url := "#"; description := Some descr;
     due_datetime_parsed := None; due_date_parsed := None |}.

(** A practice exam without points and without a text, as Canvas lists
    it: both keys are [null].  Due 2026-01-02 23:59:00 Pacific. *)
Definition practice_exam : RawAssignment :=
  {| raw_name := Some "Practice Exam 3";
     raw_due_at := Some "2026-01-03T07:59:00Z";
     raw_points_possible := Some None;
     raw_html_url := None;
     raw_description := Some None |}.

(** An instance whose only course lists the practice exam. *)
Definition review_site : Instance :=
  {| planner_response := Reply 200 [];
     courses_response := Reply 200 [wr121];
     assignments_response := fun _ => Reply 200 [practice_exam] |}.

(** Two records whose names and deadlines both differ. *)
Definition quiz_a : Assignment := work "Quiz_1" (Some "2026-02-01T23:59:00Z") 10 "".
Definition quiz_b : Assignment := work "Quiz" (Some "1_2026-02-01T23:59:00Z") 10 "".

(** Midnight of 2026-01-01, Pacific time. *)
Definition new_year : datetime := civil 2026 1 1 0 0 0.

(** Due 2026-01-04 11:59:59 Pacific. *)
Definition due_inside : Assignment := work "Lab 1" (Some "2026-01-04T19:59:59Z") 10 "".
(** Due 2026-01-04 12:00:01 Pacific. *)
Definition due_outside : Assignment := work "Lab 2" (Some "2026-01-04T20:00:01Z") 10 "".
(** Due 2025-12-31 23:59:59 Pacific. *)
Definition due_past : Assignment := work "Lab 0" (Some "2026-01-01T07:59:59Z") 10 "".
(** A deadline that is not in the Canvas format. *)
Definition due_unparsable : Assignment := work "Lab 3" (Some "January 4th") 10 "".

Definition container (n : string) (unlock : option string) : ContentModule :=
  {| module_name := Some n; module_unlock_at := unlock; module_items := [] |}.

(** A deadline of 2026-03-20 09:00:00 Pacific (16:00:00 UTC). *)
Definition exam_deadline : datetime := civil 2026 3 20 9 0 0.

Definition page_item (title slug : string) : Item :=
  {| item_type := Some "Page"; item_title := Some title;
     item_url := Some ("https://canvas.example.edu/api/v1/courses/7/pages/" +:+ slug);
     item_html_url := None; item_page_url := Some slug;
     item_content_id := None |}.

(** A module that lists the same lecture on two pages. *)
Definition week_1 : ContentModule :=
  {| module_name := Some "Week 1"; module_unlock_at := None;
     module_items := [page_item "Lecture 1" "lecture-1";
                      page_item "Lecture 1 (print)" "lecture-1-print"] |}.

Definition econ : CourseSite :=
  {| modules_response := Reply 200 [week_1];
     page_response := fun slug =>
       Reply 200 {| page_title := Some slug;
                    page_body := Some "<p>Supply and   demand.</p>" |};
     assignment_response := fun _ => Reply 404 {| assignment_name := None; assignment_description := None |};
     discussion_response := fun _ => Raised |}.

End Examples.

(** ** The planner's messages: [planners/daily-canvas-planner.py] *)

Module Messages.
Import PyStr Datetime Planner StudyGuide.

(** [s.split(sep)] for a non-empty [sep]: the pieces between the
    occurrences of [sep], found from left to right without overlap.  [skip]
    counts the characters of the current occurrence still to be passed. *)
Fixpoint split_from (sep : string) (skip : nat) (s : string) : list string :=
  match s with
  | EmptyString => [""]
  | String c s' =>
      match skip with
      | S k => split_from sep k s'
      | O =>
          if startswith sep s
          then "" :: split_from sep (String.length sep - 1) s'
          else
            match split_from sep O s' with
            | piece :: pieces => String c piece :: pieces
            | [] => [String c ""]
            end
      end
  end.

Definition split (sep s : string) : list string := split_from sep O s.

(** [l[i]]: a negative index counts from the end; outside the list Python
    raises [IndexError]. *)
Definition py_index {A : Type} (l : list A) (i : Z) : option A :=
  if 0 <=? i then l !! Z.to_nat i
  else if - Z.of_nat (length l) <=? i then l !! Z.to_nat (Z.of_nat (length l) + i)
  else None.

(** The parsing of the completion in [generate_ai_action_plan]: the pair
    [(action_plan, tips)], or [None] when a statement raises (the function
    then falls back to its fixed plan). *)
Definition parse_ai_response (ai_response : string) : option (string * string) :=
  if contains "ACTION_PLAN:" ai_response then
    plan_section ← py_index (split "ACTION_PLAN:" ai_response) 1;
    if contains "TIPS:" plan_section then
      action_plan ← py_index (split "TIPS:" plan_section) 0;
      tips ← py_index (split "TIPS:" plan_section) 1;
      Some (strip action_plan, strip tips)
    else Some (strip plan_section, "")
  else Some ("", "").

(** The ordinal suffix of the date header in [main]; [None] when the list
    index is out of range. *)
Definition day_suffix (day : Z) : option string :=
  if ((4 <=? day) && (day <=? 20)) || ((24 <=? day) && (day <=? 30))
  then Some "th"
  else py_index ["st"; "nd"; "rd"] (day mod 10 - 1).

(** [s.replace(' ', '')] *)
Fixpoint remove_blanks (s : string) : string :=
  match s with
  | EmptyString => EmptyString
  | String c s' =>
      if bool_decide (c = " "%char) then remove_blanks s'
      else String c (remove_blanks s')
  end.

(** The course code of a listing line in [main]. *)
Definition course_code (course : string) : option string :=
  course_code ←
    (if contains "(" course then strip <$> py_index (split "(" course) 0
     else Some course);
  Some (remove_blanks course_code).

(** [assignments_by_date], the [defaultdict(list)] of [main], keyed by the
    day number of the local deadline. *)
Definition group_by_date (due_soon : list Assignment) : gmap Z (list Assignment) :=
  foldl (fun by_date assignment =>
           match due_datetime_parsed assignment with
           | Some due_datetime =>
               let date_key := date due_datetime in
               <[date_key := default [] (by_date !! date_key) ++ [assignment]]> by_date
           | None => by_date
           end)
        ∅ due_soon.

(** [sorted(assignments_by_date.keys())] *)
Definition sorted_dates (by_date : gmap Z (list Assignment)) : list Z :=
  sort_by id (elements (dom by_date)).

(** The listing of [main]: for each date in ascending order, the
    assignments filed under it. *)
Definition date_groups (due_soon : list Assignment) : list (Z * list Assignment) :=
  let assignments_by_date := group_by_date due_soon in
  (fun d => (d, default [] (assignments_by_date !! d)))
    <$> sorted_dates assignments_by_date.

End Messages.

(** ** The study guide's file name and the quiz collector:
    [study_guides/auto-study-guide-generator.py] *)

Module Guide.
Import PyStr Datetime Planner StudyGuide.

(** [\w] on ASCII: letters, digits and the underscore. *)
Definition is_word (c : ascii) : bool :=
  let n := N_of_ascii c in
  (((48 <=? n) && (n <=? 57)) || ((65 <=? n) && (n <=? 90))
   || ((97 <=? n) && (n <=? 122)) || (n =? 95))%N.

(** [re.sub(r'[^\w\s-]', '', name)] *)
Fixpoint drop_unsafe (s : string) : string :=
  match s with
  | EmptyString => EmptyString
  | String c s' =>
      if is_word c || is_space c || bool_decide (c = "-"%char)
      then String c (drop_unsafe s')
      else drop_unsafe s'
  end.

(** [re.sub(r'[-\s]+', '-', safe_name)]; [in_run] tells that the previous
    character was a hyphen or white space. *)
Fixpoint hyphenate (in_run : bool) (s : string) : string :=
  match s with
  | EmptyString => EmptyString
  | String c s' =>
      if bool_decide (c = "-"%char) || is_space c
      then (if in_run then hyphenate true s'
            else String "-" (hyphenate true s'))
      else String c (hyphenate false s')
  end.

(** The [safe_name] of [generate_study_guide]. *)
Definition safe_name (name : string) : string :=
  hyphenate false (drop_unsafe name).

(** *** [get_quiz_questions] *)

(** One element of the quiz list. *)
Record Quiz : Type := {
  quiz_due_at : option string;
  quiz_lock_at : option string;
  quiz_title : option string;
  quiz_id : option Z
}.

(** One element of a quiz's submissions. *)
Record Submission : Type := {
  submission_id : option Z;
  submission_attempt : option Z
}.

(** What a course answers to the requests of the quiz collector: the quiz
    list, the submissions of a quiz (the list itself, or the value of the
    key [quiz_submissions]), the questions of a submission (the value of
    the key [quiz_submission_questions]). *)
Record QuizSite : Type := {
  quizzes_response : reply (list Quiz);
  submissions_response : option Z -> reply (list Submission);
  questions_response : Z -> reply (list Question)
}.

Section QuizCollector.
Context {L : Library}.

(** The date test of one quiz: [true] when the loop goes on to the next
    quiz.  A date that cannot be read does not skip the quiz. *)
Definition quiz_skipped (exam_date : datetime) (quiz : Quiz) : bool :=
  match or_else (quiz_due_at quiz) (quiz_lock_at quiz) with
  | Some due_at =>
      if nonempty due_at
      then match to_pacific due_at with
           | Some due_datetime_pacific => exam_date <=? due_datetime_pacific
           | None => false
           end
      else false
  | None => false
  end.

(** The loop over the submissions of one quiz.  A request that raises ends
    the work on this quiz; the questions listed so far stay. *)
Fixpoint submissions_loop (site : QuizSite) (title : string)
    (quiz_submissions : list Submission)
    (all_quiz_questions : list QuizQuestion) : list QuizQuestion :=
  match quiz_submissions with
  | [] => all_quiz_questions
  | submission :: rest =>
      let attempt_num := default 1 (submission_attempt submission) in
      match submission_id submission with
      | Some quiz_sub_id =>
          if quiz_sub_id =? 0 then submissions_loop site title rest all_quiz_questions
          else
            match questions_response site quiz_sub_id with
            | Raised => all_quiz_questions
            | Reply code questions_list =>
                if code =? 200 then
                  let listed :=
                    foldl (add_question title attempt_num)
                          all_quiz_questions questions_list in
                  if bool_decide (questions_list <> []) then listed
                  else submissions_loop site title rest listed
                else submissions_loop site title rest all_quiz_questions
            end
      | None => submissions_loop site title rest all_quiz_questions
      end
  end.

(** One iteration of the loop over the quizzes. *)
Definition quiz_step (site : QuizSite) (exam_date : datetime)
    (all_quiz_questions : list QuizQuestion) (quiz : Quiz) : list QuizQuestion :=
  if quiz_skipped exam_date quiz then all_quiz_questions
  else
    match submissions_response site (quiz_id quiz) with
    | Raised => all_quiz_questions
    | Reply code quiz_submissions =>
        if code =? 200
        then submissions_loop site (default "Quiz" (quiz_title quiz))
               quiz_submissions all_quiz_questions
        else all_quiz_questions
    end.

Definition get_quiz_questions (site : QuizSite) (exam_date : datetime)
  : list QuizQuestion :=
  match quizzes_response site with
  | Raised => []
  | Reply code quizzes =>
      if code =? 200 then foldl (quiz_step site exam_date) [] quizzes else []
  end.

End QuizCollector.

End Guide.

(** ** Further vocabulary *)

Module Terms.
Import PyStr Datetime Planner StudyGuide Policy Messages Guide.

(** The characters of a string. *)
Fixpoint chars (s : string) : list ascii :=
  match s with
  | EmptyString => []
  | String c s' => c :: chars s'
  end.

(** A text in which white space occurs only as single blanks between other
    characters. *)
Fixpoint single_spaced (s : string) : Prop :=
  match s with
  | EmptyString => True
  | String c s' =>
      (is_space c = true -> c = " "%char)
      /\ (is_space c = true ->
          match s' with
          | String d _ => is_space d = false
          | EmptyString => False
          end)
      /\ single_spaced s'
  end.

(** No white space at the start. *)
Definition starts_clean (s : string) : Prop :=
  match s with
  | String c _ => is_space c = false
  | EmptyString => True
  end.

(** No white space at the end. *)
Fixpoint ends_clean (s : string) : Prop :=
  match s with
  | EmptyString => True
  | String c EmptyString => is_space c = false
  | String _ s' => ends_clean s'
  end.

(** White space occurs only as single blanks, possibly one at the end. *)
Fixpoint loosely_spaced (s : string) : Prop :=
  match s with
  | EmptyString => True
  | String c s' =>
      (is_space c = true -> c = " "%char /\ starts_clean s')
      /\ loosely_spaced s'
  end.

(** The English ordinal suffix of a day of the month. *)
Definition ordinal_suffix (day : Z) : string :=
  if (day mod 100 =? 11) || (day mod 100 =? 12) || (day mod 100 =? 13) then "th"
  else if day mod 10 =? 1 then "st"
  else if day mod 10 =? 2 then "nd"
  else if day mod 10 =? 3 then "rd"
  else "th".

(** Characters of a file name that need no quoting: letters, digits,
    underscore and hyphen. *)
Definition filename_char (c : ascii) : bool :=
  is_word c || bool_decide (c = "-"%char).

(** Two hyphens in a row. *)
Fixpoint double_hyphen (s : string) : bool :=
  match s with
  | String c s' =>
      (bool_decide (c = "-"%char)
       && match s' with
          | String d _ => bool_decide (d = "-"%char)
          | EmptyString => false
          end)
      || double_hyphen s'
  | EmptyString => false
  end.

(** The day number under which a record is filed. *)
Abbreviation date_key a := (date <$> due_datetime_parsed a).

(** The first character of a text is not a hyphen. *)
Definition no_leading_hyphen (s : string) : Prop :=
  match s with
  | String c _ => c <> "-"%char
  | EmptyString => True
  end.

(** A text of ASCII characters. *)
Definition ascii_text (s : string) : Prop :=
  Forall (fun c => (N_of_ascii c < 128)%N) (chars s).

(** The instance [i] with another answer for the assignments of course
    [id]. *)
Definition with_assignments (i : Instance) (id : Z)
    (r : reply (list RawAssignment)) : Instance :=
  {| planner_response := planner_response i;
     courses_response := courses_response i;
     assignments_response := fun id' =>
       if bool_decide (id' = id) then r else assignments_response i id' |}.

(** The quiz without its dates. *)
Definition undated (quiz : Quiz) : Quiz :=
  {| quiz_due_at := None; quiz_lock_at := None;
     quiz_title := quiz_title quiz; quiz_id := quiz_id quiz |}.

(** The site with another quiz list. *)
Definition with_quizzes (site : QuizSite) (quizzes : list Quiz) : QuizSite :=
  {| quizzes_response := Reply 200 quizzes;
     submissions_response := submissions_response site;
     questions_response := questions_response site |}.

End Terms.

(** ** Further sample data *)

Module Samples.
Import PyStr Datetime Planner StudyGuide Policy Examples Messages Guide Terms.

Definition quiz (title : string) (due : option string) (id : Z) : Quiz :=
  {| quiz_due_at := due; quiz_lock_at := None;
     quiz_title := Some title; quiz_id := Some id |}.

Definition elasticity : Question :=
  {| question_text := Some "<p>Define   elasticity.</p>";
     question_type := Some "essay_question";
     question_answers := [] |}.

(** A course with the quiz list [quizzes]; every quiz has one submission
    with one question. *)
Definition quiz_site (quizzes : list Quiz) : QuizSite :=
  {| quizzes_response := Reply 200 quizzes;
     submissions_response := fun _ =>
       Reply 200 [ {| submission_id := Some 11; submission_attempt := Some 1 |} ];
     questions_response := fun _ => Reply 200 [elasticity] |}.

(** Due 2026-01-02 10:00:00 Pacific. *)
Definition due_early : Assignment := work "Essay 2" (Some "2026-01-02T18:00:00Z") 100 "".
(** Due 2026-01-04 09:00:00 Pacific. *)
Definition due_morning : Assignment := work "Quiz 4" (Some "2026-01-04T17:00:00Z") 10 "".

(** The work of a week, in an order in which the deadlines do not
    ascend. *)
Definition week_work : list Assignment :=
  [due_inside; due_outside; due_early; due_unparsable; due_morning; due_past].

(** What the classifier keeps of it at [new_year]: one record due on
    2026-01-02 and two due on 2026-01-04. *)
Definition week_due_soon : list Assignment :=
  [enrich due_early (civil 2026 1 2 10 0 0);
   enrich due_morning (civil 2026 1 4 9 0 0);
   enrich due_inside (civil 2026 1 4 11 59 59)].

End Samples.

(** * Properties *)

(** ** String search *)

Module PyStrFacts.
Import PyStr.

Lemma append_nil (s : string) : "" +:+ s = s.
Proof. reflexivity. Qed.

Lemma append_cons (c : ascii) (s t : string) :
  String c s +:+ t = String c (s +:+ t).
Proof. reflexivity. Qed.

Lemma startswith_spec (k s : string) :
  startswith k s = true <-> exists post, s = k +:+ post.
Proof.
  revert s. induction k as [|a k IH]; intros s.
  - split; [intros _; exists s; reflexivity | reflexivity].
  - destruct s as [|b s]; simpl.
    + split; [discriminate | intros [post Hpost]; discriminate].
    + rewrite andb_true_iff, bool_decide_eq_true, IH. split.
      * intros [-> [post ->]]. exists post. reflexivity.
      * intros [post Hpost]. rewrite append_cons in Hpost.
        injection Hpost as -> ->. split; [reflexivity | eauto].
Qed.

Lemma contains_cons (k : string) (c : ascii) (s : string) :
  contains k (String c s) = startswith k (String c s) || contains k s.
Proof. reflexivity. Qed.

(** The search finds exactly the occurrences. *)
Lemma contains_spec (k s : string) :
  contains k s = true <-> occurs_in k s.
Proof.
  unfold occurs_in. split.
  - induction s as [|c s IH].
    + simpl. rewrite orb_false_r. intros H%startswith_spec.
      destruct H as [post ->]. exists "", post. reflexivity.
    + rewrite contains_cons, orb_true_iff. intros [H|H].
      * apply startswith_spec in H as [post ->]. exists "", post. reflexivity.
      * destruct (IH H) as (pre & post & ->).
        exists (String c pre), post. reflexivity.
  - intros (pre & post & ->). induction pre as [|c pre IH].
    + rewrite append_nil.
      assert (startswith k (k +:+ post) = true) as Hs
        by (apply startswith_spec; eauto).
      destruct (k +:+ post); simpl; rewrite Hs; reflexivity.
    + rewrite append_cons, contains_cons, IH. apply orb_true_r.
Qed.

Lemma contains_any_spec (ks : list string) (s : string) :
  contains_any ks s = true <-> exists k, k ∈ ks /\ occurs_in k s.
Proof.
  unfold contains_any. rewrite existsb_exists.
  split; intros (k & Hin & Hk); exists k; split;
    solve [by apply list_elem_of_In | by apply contains_spec].
Qed.

Lemma nonempty_false (s : string) : nonempty s = false <-> s = "".
Proof. by destruct s. Qed.

Lemma free_of_append (c : ascii) (s t : string) :
  free_of c (s +:+ String c t) -> False.
Proof.
  induction s as [|b s IH].
  - intros [Hne _]. by apply Hne.
  - intros [_ H]. auto.
Qed.

(** A separator that does not occur in the second component makes the
    concatenation unambiguous. *)
Lemma join_inj (c : ascii) (n1 n2 d1 d2 : string) :
  free_of c d1 -> free_of c d2 ->
  n1 +:+ String c d1 = n2 +:+ String c d2 -> n1 = n2 /\ d1 = d2.
Proof.
  intros H1 H2. revert n2.
  induction n1 as [|a n1 IH]; intros [|b n2]; rewrite ?append_nil, ?append_cons.
  - intros [= ->]. done.
  - intros [= -> ->]. by apply free_of_append in H1.
  - intros [= -> <-]. by apply free_of_append in H2.
  - intros [= -> Heq]. destruct (IH _ Heq) as [-> ->]. done.
Qed.

End PyStrFacts.

(** ** Timestamps of the Canvas format *)

Module TimestampFacts.
Import PyStr Datetime Planner Policy PyStrFacts.

Lemma digit_plain (c : ascii) (d : Z) : digit c = Some d -> c <> "_"%char.
Proof. intros Hd ->. discriminate Hd. Qed.

Lemma number_plain (width : nat) (acc : option Z) (s : string) v s' :
  number width acc s = Some (v, s') ->
  free_of "_"%char s' -> free_of "_"%char s.
Proof.
  revert width acc. induction s as [|c s IH]; intros width acc; [done|].
  destruct (digit c) as [d|] eqn:Hd.
  - destruct width as [|width]; simpl; rewrite Hd; [done|].
    intros Hn Hs'. split.
    + by apply digit_plain in Hd.
    + by apply (IH _ _ Hn).
  - assert (number width acc (String c s)
            = acc ≫= fun v => Some (v, String c s)) as ->
      by (destruct width; simpl; by rewrite Hd).
    destruct acc; simpl; [|done]. by intros [= _ <-].
Qed.

Lemma ranged_Some (lo hi : Z) r v s :
  ranged lo hi r = Some (v, s) -> r = Some (v, s).
Proof.
  destruct r as [[v' s']|]; simpl; [|done].
  destruct ((lo <=? v') && (v' <=? hi)); [|done]. by intros [= -> ->].
Qed.

Lemma literal_plain (c : ascii) (s s' : string) :
  lower_ascii c <> "_"%char ->
  literal c s = Some s' -> free_of "_"%char s' -> free_of "_"%char s.
Proof.
  intros Hc. destruct s as [|b s]; simpl; [done|].
  destruct (bool_decide (lower_ascii b = lower_ascii c)) eqn:Hb; [|done].
  apply bool_decide_eq_true in Hb. intros [= ->] Hs'. split; [|done].
  intros ->. apply Hc. by rewrite <- Hb.
Qed.

Lemma year_directive_plain (s : string) v s' :
  year_directive s = Some (v, s') ->
  free_of "_"%char s' -> free_of "_"%char s.
Proof.
  destruct s as [|a [|b [|c [|d s]]]]; simpl; try done.
  destruct (digit a) eqn:Ha; simpl; [|done].
  destruct (digit b) eqn:Hb; simpl; [|done].
  destruct (digit c) eqn:Hc; simpl; [|done].
  destruct (digit d) eqn:Hd; simpl; [|done].
  intros [= _ <-] Hs'. eauto 10 using digit_plain.
Qed.

Lemma day_directive_plain (s : string) v s' :
  day_directive s = Some (v, s') ->
  free_of "_"%char s' -> free_of "_"%char s.
Proof.
  destruct s as [|c s].
  - simpl. done.
  - destruct (decide (c = " "%char)) as [->|Hc].
    + change (day_directive (String " " s)) with (ranged 1 9 (number 1 None s)).
      intros Hn%ranged_Some Hs'. split; [done|].
      by apply (number_plain _ _ _ _ _ Hn).
    + assert (day_directive (String c s)
              = ranged 1 31 (number 2 None (String c s))) as ->.
      { destruct c as [[] [] [] [] [] [] [] []]; done. }
      intros Hn%ranged_Some. by apply (number_plain _ _ _ _ _ Hn).
Qed.

(** Every text that [strptime] accepts for the Canvas format is free of
    underscores and is not the word None. *)
Lemma canvas_timestamp_plain (s : string) (d : datetime) :
  strptime_canvas s = Some d -> plain_due (Some s).
Proof.
  intros Hs. split; [|intros ->; discriminate Hs].
  revert Hs. unfold strptime_canvas.
  destruct (year_directive s) as [[year s1]|] eqn:H1; simpl; [|done].
  destruct (literal "-" s1) as [s2|] eqn:H2; simpl; [|done].
  destruct (ranged 1 12 _) as [[month s3]|] eqn:H3; simpl; [|done].
  destruct (literal "-" s3) as [s4|] eqn:H4; simpl; [|done].
  destruct (day_directive s4) as [[day s5]|] eqn:H5; simpl; [|done].
  destruct (literal "T" s5) as [s6|] eqn:H6; simpl; [|done].
  destruct (ranged 0 23 _) as [[hour s7]|] eqn:H7; simpl; [|done].
  destruct (literal ":" s7) as [s8|] eqn:H8; simpl; [|done].
  destruct (ranged 0 59 _) as [[minute s9]|] eqn:H9; simpl; [|done].
  destruct (literal ":" s9) as [s10|] eqn:H10; simpl; [|done].
  destruct (ranged 0 61 _) as [[second s11]|] eqn:H11; simpl; [|done].
  destruct (literal "Z" s11) as [s12|] eqn:H12; simpl; [|done].
  destruct (nonempty s12) eqn:Hend; [done|]. intros _.
  apply nonempty_false in Hend as ->.
  apply ranged_Some in H3, H7, H9, H11.
  apply (year_directive_plain _ _ _ H1).
  eapply literal_plain; [|exact H2|]; [vm_compute; discriminate|].
  apply (number_plain 2 None s2 month s3 H3).
  eapply literal_plain; [|exact H4|]; [vm_compute; discriminate|].
  apply (day_directive_plain _ _ _ H5).
  eapply literal_plain; [|exact H6|]; [vm_compute; discriminate|].
  apply (number_plain 2 None s6 hour s7 H7).
  eapply literal_plain; [|exact H8|]; [vm_compute; discriminate|].
  apply (number_plain 2 None s8 minute s9 H9).
  eapply literal_plain; [|exact H10|]; [vm_compute; discriminate|].
  apply (number_plain 2 None s10 second s11 H11).
  eapply literal_plain; [|exact H12|]; [vm_compute; discriminate|].
  done.
Qed.

End TimestampFacts.

(** ** The importance classifier *)

Module MajorFacts.
Import PyStr Datetime Planner Policy Examples PyStrFacts.

(** With points that are a number, the chain of early returns is a
    disjunction. *)
Lemma is_major_test_orb (a : Assignment) (points : Q) :
  points_possible a = Some points ->
  is_major_test a
  = Some (contains_any major_keywords (lower (name a))
          || contains "exam" (lower (name a))
             && Qle_bool (inject_Z 50) points
          || (contains "respondus" (lower (format_opt (description a)))
              || contains "lockdown browser"
                   (lower (format_opt (description a))))).
Proof.
  intros Hp. unfold is_major_test. rewrite Hp.
  destruct (contains_any _ _); [done|].
  destruct (contains "exam" _); simpl; [|by destruct (contains "respondus" _ || _)].
  destruct (Qle_bool _ _); [done|].
  by destruct (contains "respondus" _ || _).
Qed.

Lemma major_phrase_spec (a : Assignment) :
  contains_any major_keywords (lower (name a)) = true <-> major_phrase a.
Proof.
  unfold major_phrase, contains_any, major_keywords. simpl existsb.
  rewrite !orb_true_iff, !contains_spec. intuition discriminate.
Qed.

(** [str] of a [null] description is the text None, in which neither
    proctoring tool occurs. *)
Lemma proctored_spec (d : option string) :
  contains "respondus" (lower (format_opt d))
  || contains "lockdown browser" (lower (format_opt d)) = true
  <-> occurs_in "respondus" (lower (default "" d))
      \/ occurs_in "lockdown browser" (lower (default "" d)).
Proof.
  rewrite orb_true_iff, <- !contains_spec.
  destruct d as [s|]; [done|]. simpl. intuition discriminate.
Qed.

(** The function raises exactly when it reaches the comparison with points
    that are [None]. *)
Lemma is_major_test_None (a : Assignment) :
  is_major_test a = None
  <-> ~ major_phrase a /\ occurs_in "exam" (lower (name a))
      /\ points_possible a = None.
Proof.
  rewrite <- major_phrase_spec, <- contains_spec. unfold is_major_test.
  destruct (contains_any _ _); [intuition discriminate|].
  destruct (contains "exam" _); simpl.
  - destruct (points_possible a) as [p|]; simpl.
    + destruct (Qle_bool _ _); [intuition discriminate|].
      destruct (contains "respondus" _ || _); intuition discriminate.
    + intuition discriminate.
  - destruct (contains "respondus" _ || _); intuition discriminate.
Qed.

(** X24.  Whenever [is_major_test] answers, it answers by the importance
    rule: [true] exactly for a name that contains "midterm", "final exam",
    "final test" or "midterm exam", whatever the points; or a name that
    contains "exam" with at least 50 points; or a description that contains
    "respondus" or "lockdown browser"; all compared in lower case.  It
    fails to answer exactly for a name with "exam" and without a major
    phrase whose points are [None]. *)
Theorem is_major_test_spec (a : Assignment) :
  (forall major, is_major_test a = Some major ->
     (major = true <-> major_policy a))
  /\ (is_major_test a = None
      <-> ~ major_phrase a /\ occurs_in "exam" (lower (name a))
          /\ points_possible a = None).
Proof.
  split; [|apply is_major_test_None].
  intros major. unfold major_policy.
  rewrite <- major_phrase_spec, <- proctored_spec, <- contains_spec.
  unfold is_major_test.
  destruct (contains_any _ _); [intros [= <-]; tauto|].
  destruct (contains "exam" _); simpl.
  - destruct (points_possible a) as [p|]; simpl; [|done].
    rewrite <- Qle_bool_iff.
    destruct (Qle_bool _ _); [intros [= <-]; tauto|].
    destruct (contains "respondus" _ || _); intros [= <-]; intuition discriminate.
  - destruct (contains "respondus" _ || _); intros [= <-]; intuition discriminate.
Qed.

(** C5.  The importance rule is not what the code computes on every item:
    a practice exam that Canvas lists with [null] points is collected with
    [None] for its points, passes the temporal classifier, and makes
    [is_major_test] raise at [None >= 50], where the rule says: not
    major. *)
Theorem practice_exam_raises :
  filter_due_next_3_days (L := cpython) new_year
    (get_canvas_all_items review_site)
  = Some [enrich (of_assignment wr121 practice_exam) (civil 2026 1 2 23 59 0)]
  /\ is_major_test
       (enrich (of_assignment wr121 practice_exam) (civil 2026 1 2 23 59 0))
     = None
  /\ ~ major_policy
        (enrich (of_assignment wr121 practice_exam) (civil 2026 1 2 23 59 0)).
Proof.
  split; [vm_compute; reflexivity|]. split; [reflexivity|].
  unfold major_policy, major_phrase. rewrite <- !contains_spec. simpl.
  intros [H|[[_ H]|H]].
  - intuition discriminate.
  - apply Qle_bool_iff in H. discriminate H.
  - intuition discriminate.
Qed.

Example midterm_any_points (points : Z) :
  is_major_test (work "Midterm Exam 1" None points "") = Some true.
Proof. reflexivity. Qed.

Example exam_40_points : is_major_test (work "Exam 3" None 40 "") = Some false.
Proof. reflexivity. Qed.

Example exam_50_points : is_major_test (work "Exam 3" None 50 "") = Some true.
Proof. reflexivity. Qed.

Example proctored_quiz :
  is_major_test
    (work "Unit check" None 5 "Requires Respondus LockDown Browser") = Some true.
Proof. reflexivity. Qed.

(** A major phrase answers before the points are looked at. *)
Example midterm_without_points :
  is_major_test
    {| name := "Midterm Exam 1"; due_at := None; points_possible := None;
       course_name := "WR 121"; html_url := "#"; description := None;
       due_datetime_parsed := None; due_date_parsed := None |} = Some true.
Proof. reflexivity. Qed.

End MajorFacts.

(** ** The collector and the merge *)

Module CollectorFacts.
Import PyStr Datetime Planner Policy Examples PyStrFacts.

(** *** The invariant of the collector *)

Lemma fresh_ok : collector_ok fresh.
Proof. split; simpl; [constructor|]. intros k. set_solver. Qed.

Lemma add_item_ok (st : collector) (a : Assignment) :
  collector_ok st -> collector_ok (add_item st a).
Proof.
  intros [Hnd Hseen]. unfold add_item.
  destruct (decide (item_key a ∈ seen_items st)) as [Hin|Hnin]; [done|].
  split; simpl.
  - rewrite fmap_app. apply NoDup_app. split; [done|]. split.
    + intros k Hk. simpl. rewrite list_elem_of_singleton. intros ->.
      apply Hnin, Hseen, Hk.
    + simpl. apply NoDup_singleton.
  - intros k. rewrite fmap_app, elem_of_app, elem_of_union, elem_of_singleton.
    simpl. rewrite list_elem_of_singleton, Hseen. tauto.
Qed.

Lemma add_items_ok (l : list Assignment) (st : collector) :
  collector_ok st -> collector_ok (foldl add_item st l).
Proof.
  revert st. induction l as [|a l IH]; intros st Hst; simpl; [done|].
  apply IH, add_item_ok, Hst.
Qed.

Lemma add_items_seen (l : list Assignment) (st : collector) (k : string) :
  k ∈ seen_items (foldl add_item st l)
  <-> k ∈ seen_items st \/ k ∈ item_key <$> l.
Proof.
  revert st. induction l as [|a l IH]; intros st; simpl.
  - rewrite elem_of_nil. tauto.
  - rewrite IH, elem_of_cons. unfold add_item.
    destruct (decide (item_key a ∈ seen_items st)) as [Hin|Hnin]; simpl.
    + split; [tauto|]. intros [?|[->|?]]; tauto.
    + rewrite elem_of_union, elem_of_singleton. tauto.
Qed.

(** A record is dropped exactly when its key has been seen. *)
Lemma add_item_dropped (st : collector) (y : Assignment) :
  add_item st y = st <-> item_key y ∈ seen_items st.
Proof.
  unfold add_item.
  destruct (decide (item_key y ∈ seen_items st)) as [Hin|Hnin]; [done|].
  split; [|done]. intros Heq.
  apply (f_equal (fun st => length (all_items st))) in Heq. simpl in Heq.
  rewrite length_app in Heq. simpl in Heq. lia.
Qed.

Lemma add_item_elem (st : collector) (a x : Assignment) :
  x ∈ all_items (add_item st a) -> x ∈ all_items st \/ x = a.
Proof.
  unfold add_item. destruct (decide _); simpl; [tauto|].
  rewrite elem_of_app, list_elem_of_singleton. tauto.
Qed.

(** First seen wins: a record of the result is the first of the run with
    its key. *)
Lemma add_items_first_seen (l : list Assignment) (st : collector) (a : Assignment) :
  a ∈ all_items (foldl add_item st l) ->
  a ∈ all_items st
  \/ exists l1 l2, l = l1 ++ a :: l2
       /\ (item_key a ∉ seen_items st)
       /\ forall b, b ∈ l1 -> item_key b <> item_key a.
Proof.
  revert st. induction l as [|x l IH]; intros st; simpl; [tauto|].
  intros Ha. destruct (IH _ Ha) as [Hin|(l1 & l2 & -> & Hseen & Hl1)].
  - unfold add_item in Hin.
    destruct (decide (item_key x ∈ seen_items st)) as [Hx|Hx]; [tauto|].
    simpl in Hin. apply elem_of_app in Hin as [Hin|Hin]; [tauto|].
    apply list_elem_of_singleton in Hin as ->. right.
    exists [], l. split; [done|]. split; [done|]. intros b Hb.
    by apply elem_of_nil in Hb.
  - right. exists (x :: l1), l2. split; [done|].
    unfold add_item in Hseen.
    destruct (decide (item_key x ∈ seen_items st)) as [Hx|Hx]; simpl in Hseen.
    + split; [done|]. intros b [->|Hb]%elem_of_cons; [congruence|auto].
    + rewrite elem_of_union, elem_of_singleton in Hseen.
      split; [tauto|]. intros b [->|Hb]%elem_of_cons; [|auto].
      intros Heq. apply Hseen. by left.
Qed.

(** *** Keys and identities *)

Lemma item_key_identity (x y : Assignment) :
  identity x = identity y -> item_key x = item_key y.
Proof. unfold identity, item_key. by intros [= -> ->]. Qed.

Lemma format_opt_free (o : option string) :
  plain_due o -> free_of "_"%char (format_opt o).
Proof.
  destruct o as [s|]; simpl; [tauto|]. intros _. repeat split; discriminate.
Qed.

Lemma format_opt_inj (o1 o2 : option string) :
  plain_due o1 -> plain_due o2 -> format_opt o1 = format_opt o2 -> o1 = o2.
Proof.
  destruct o1 as [s1|], o2 as [s2|]; simpl.
  - by intros _ _ ->.
  - intros [_ Hne] _ Heq. by destruct Hne.
  - intros _ [_ Hne] Heq. by destruct Hne.
  - done.
Qed.

Lemma item_key_inj (x y : Assignment) :
  plain_due (due_at x) -> plain_due (due_at y) ->
  item_key x = item_key y -> name x = name y /\ due_at x = due_at y.
Proof.
  intros Hx Hy Hkey. unfold item_key in Hkey.
  apply join_inj in Hkey as [Hn Hd]; auto using format_opt_free.
  split; [done|]. by apply format_opt_inj.
Qed.

(** *** Both retrieval methods are runs of [add_item] *)

Lemma planner_method_fold r st st' :
  planner_method r st = Some st' -> exists l, st' = foldl add_item st l.
Proof.
  destruct r as [|code items]; simpl; [done|].
  destruct (code =? 200); intros [= <-].
  - exists (of_planner <$> items). revert st.
    induction items as [|p items IH]; intros st; simpl; [done|]. apply IH.
  - by exists [].
Qed.

Lemma assignments_loop_fold course st l :
  exists l', assignments_loop course st l = foldl add_item st l'.
Proof.
  unfold assignments_loop. revert st.
  induction l as [|a l IH]; intros st; simpl; [by exists []|].
  destruct (truthy (raw_due_at a)).
  - destruct (IH (add_item st (of_assignment course a))) as [l' ->].
    by exists (of_assignment course a :: l').
  - apply IH.
Qed.

Lemma courses_loop_fold fetch courses st st' :
  courses_loop fetch courses st = Some st' ->
  exists l, st' = foldl add_item st l.
Proof.
  revert st. induction courses as [|c courses IH]; intros st; simpl.
  - intros [= <-]. by exists [].
  - destruct (course_id c) as [id|]; [|apply IH].
    destruct (old_course c); [apply IH|].
    destruct (fetch id) as [|code l]; [done|].
    destruct (code =? 200); [|apply IH].
    destruct (assignments_loop_fold c st l) as [l1 ->].
    intros H. destruct (IH _ H) as [l2 ->].
    exists (l1 ++ l2). by rewrite foldl_app.
Qed.

Lemma collect_fold i st :
  collect i = Some st -> exists l, st = foldl add_item fresh l.
Proof.
  unfold collect. destruct (planner_method _ _) as [st1|] eqn:H1; simpl; [|done].
  apply planner_method_fold in H1 as [l1 ->].
  unfold assignments_method. destruct (courses_response i) as [|code cs]; [done|].
  destruct (code =? 200).
  - intros H. apply courses_loop_fold in H as [l2 ->].
    exists (l1 ++ l2). by rewrite foldl_app.
  - intros [= <-]. eauto.
Qed.

Lemma get_canvas_all_items_NoDup i :
  NoDup (identity <$> get_canvas_all_items i).
Proof.
  unfold get_canvas_all_items. destruct (collect i) as [st|] eqn:Hc.
  - apply collect_fold in Hc as [l ->].
    destruct (add_items_ok l fresh fresh_ok) as [Hnd _].
    apply (NoDup_fmap_1 (fun p : string * option string =>
                           p.1 +:+ "_" +:+ format_opt p.2)).
    by rewrite <- list_fmap_compose.
  - constructor.
Qed.

Lemma extend_concat {A B : Type} (f : A -> list B) (l : list A) (acc : list B) :
  foldl (fun acc i => acc ++ f i) acc l = acc ++ concat (f <$> l).
Proof.
  revert acc. induction l as [|x l IH]; intros acc; simpl.
  - by rewrite app_nil_r.
  - by rewrite IH, app_assoc.
Qed.

Lemma all_assignments_concat (instances : list Instance) :
  all_assignments instances = concat (get_canvas_all_items <$> instances).
Proof. unfold all_assignments. by rewrite extend_concat. Qed.

(** Without a raised error, the result is the merge of [records]. *)
Lemma planner_method_records i st st' :
  planner_method (planner_response i) st = Some st' ->
  st' = foldl add_item st (planner_records i).
Proof.
  unfold planner_records. destruct (planner_response i) as [|code items]; simpl; [done|].
  destruct (code =? 200); intros [= <-]; [|done].
  revert st. induction items as [|p items IH]; intros st; simpl; [done|]. apply IH.
Qed.

Lemma assignments_loop_records course st l :
  assignments_loop course st l
  = foldl add_item st
      (of_assignment course <$> filter (fun a => truthy (raw_due_at a) = true) l).
Proof.
  unfold assignments_loop. revert st.
  induction l as [|a l IH]; intros st; simpl; [done|].
  rewrite filter_cons. destruct (truthy (raw_due_at a)) eqn:Ha.
  - rewrite decide_True by done. simpl. apply IH.
  - rewrite decide_False by done. apply IH.
Qed.

Lemma courses_loop_records i courses st st' :
  courses_loop (assignments_response i) courses st = Some st' ->
  st' = foldl add_item st (concat (course_records i <$> courses)).
Proof.
  revert st. induction courses as [|c courses IH]; intros st; simpl.
  - by intros [= <-].
  - unfold course_records at 1. rewrite foldl_app.
    destruct (course_id c) as [id|]; [|apply IH].
    destruct (old_course c); [apply IH|].
    destruct (assignments_response i id) as [|code l]; [done|].
    destruct (code =? 200); [|apply IH].
    rewrite <- assignments_loop_records. apply IH.
Qed.

Lemma collect_records i st :
  collect i = Some st -> st = foldl add_item fresh (records i).
Proof.
  unfold collect, records. rewrite foldl_app.
  destruct (planner_method _ _) as [st1|] eqn:H1; simpl; [|done].
  apply planner_method_records in H1 as <-.
  unfold assignments_method, enumeration_records.
  destruct (courses_response i) as [|code cs]; [done|].
  destruct (code =? 200); [apply courses_loop_records | by intros [= <-]].
Qed.

(** First seen wins: a record of the result is the first record of the
    instance with its identity key. *)
Lemma get_canvas_all_items_first_seen i x :
  x ∈ get_canvas_all_items i ->
  exists l1 l2, records i = l1 ++ x :: l2
    /\ forall b, b ∈ l1 -> identity b <> identity x.
Proof.
  unfold get_canvas_all_items. destruct (collect i) as [st|] eqn:Hc;
    [|by intros ?%elem_of_nil].
  apply collect_records in Hc as ->. intros Hx.
  apply add_items_first_seen in Hx as [Hx|(l1 & l2 & Hl & _ & Hfirst)].
  - by apply elem_of_nil in Hx.
  - exists l1, l2. split; [done|]. intros b Hb Hid.
    by apply (Hfirst b Hb), item_key_identity.
Qed.

(** *** Where the records of the result come from *)

Lemma planner_method_elem r st st' x :
  planner_method r st = Some st' -> x ∈ all_items st' ->
  x ∈ all_items st
  \/ exists items p, r = Reply 200 items /\ p ∈ items /\ x = of_planner p.
Proof.
  destruct r as [|code items]; simpl; [done|].
  destruct (code =? 200) eqn:Hc; intros [= <-]; [|tauto].
  apply Z.eqb_eq in Hc as ->.
  assert (forall l st,
    x ∈ all_items (foldl (fun st item => add_item st (of_planner item)) st l) ->
    x ∈ all_items st \/ exists p, p ∈ l /\ x = of_planner p) as Hgen.
  { induction l as [|p l IH]; intros st0; simpl; [tauto|].
    intros Hx. destruct (IH _ Hx) as [Hin|(q & Hq & ->)].
    - apply add_item_elem in Hin as [?| ->]; [tauto|].
      right. exists p. split; [left|done].
    - right. exists q. split; [by right|done]. }
  intros Hx. destruct (Hgen _ _ Hx) as [?|(p & Hp & ->)]; [tauto|].
  right. by exists items, p.
Qed.

Lemma assignments_loop_elem course st l x :
  x ∈ all_items (assignments_loop course st l) ->
  x ∈ all_items st \/ truthy (due_at x) = true.
Proof.
  unfold assignments_loop. revert st.
  induction l as [|a l IH]; intros st; simpl; [tauto|].
  intros Hx. destruct (truthy (raw_due_at a)) eqn:Ha; [|by apply IH].
  destruct (IH _ Hx) as [Hin|?]; [|tauto].
  apply add_item_elem in Hin as [?| ->]; [tauto|]. by right.
Qed.

Lemma courses_loop_elem fetch courses st st' x :
  courses_loop fetch courses st = Some st' -> x ∈ all_items st' ->
  x ∈ all_items st \/ truthy (due_at x) = true.
Proof.
  revert st. induction courses as [|c courses IH]; intros st; simpl.
  - intros [= <-]. tauto.
  - destruct (course_id c) as [id|]; [|apply IH].
    destruct (old_course c); [apply IH|].
    destruct (fetch id) as [|code l]; [done|].
    destruct (code =? 200); [|apply IH].
    intros H Hx. destruct (IH _ H Hx) as [Hin|?]; [|tauto].
    by apply assignments_loop_elem in Hin.
Qed.

Lemma undated_from_planner i x :
  x ∈ get_canvas_all_items i -> truthy (due_at x) = false ->
  exists items p,
    planner_response i = Reply 200 items /\ p ∈ items /\ x = of_planner p.
Proof.
  unfold get_canvas_all_items, collect.
  destruct (planner_method _ _) as [st1|] eqn:H1; simpl;
    [|by intros ?%elem_of_nil].
  destruct (assignments_method i st1) as [st|] eqn:H2;
    [|by intros ?%elem_of_nil].
  intros Hx Hd.
  assert (x ∈ all_items st1) as Hx1.
  { unfold assignments_method in H2.
    destruct (courses_response i) as [|code cs]; [done|].
    destruct (code =? 200); [|by injection H2 as <-].
    destruct (courses_loop_elem _ _ _ _ _ H2 Hx); [done|congruence]. }
  destruct (planner_method_elem _ _ _ _ H1 Hx1) as [Hin|?]; [|done].
  by apply elem_of_nil in Hin.
Qed.

(** *** Failures of sub-calls *)

Lemma assignments_loop_app course st l1 l2 :
  assignments_loop course st (l1 ++ l2)
  = assignments_loop course (assignments_loop course st l1) l2.
Proof. unfold assignments_loop. apply foldl_app. Qed.

Lemma assignments_loop_undated course st l1 a l2 :
  truthy (raw_due_at a) = false ->
  assignments_loop course st (l1 ++ a :: l2)
  = assignments_loop course st (l1 ++ l2).
Proof.
  intros Ha. rewrite !assignments_loop_app. unfold assignments_loop at 1.
  simpl. rewrite Ha. reflexivity.
Qed.

Lemma courses_loop_without i id code l1 a l2 courses st :
  assignments_response i id = Reply code (l1 ++ a :: l2) ->
  truthy (raw_due_at a) = false ->
  courses_loop (assignments_response (without_record i id code l1 l2)) courses st
  = courses_loop (assignments_response i) courses st.
Proof.
  intros Hresp Ha. revert st.
  induction courses as [|c courses IH]; intros st; simpl; [done|].
  destruct (course_id c) as [id'|]; [|apply IH].
  destruct (old_course c); [apply IH|].
  destruct (decide (id' = id)) as [->|Hne].
  - rewrite Hresp, bool_decide_eq_true_2 by done.
    destruct (code =? 200); [|apply IH].
    rewrite assignments_loop_undated by done. apply IH.
  - rewrite bool_decide_eq_false_2 by done.
    destruct (assignments_response i id') as [|code' l]; [done|].
    destruct (code' =? 200); apply IH.
Qed.

Lemma planner_method_degrade r st :
  planner_method (degrade r) st = planner_method r st.
Proof.
  destruct r as [|code items]; simpl; [done|].
  destruct (code =? 200) eqn:Hc; simpl; [by rewrite Hc|done].
Qed.

Lemma courses_loop_degrade fetch courses st :
  courses_loop (fun id => degrade (fetch id)) courses st
  = courses_loop fetch courses st.
Proof.
  revert st. induction courses as [|c courses IH]; intros st; simpl; [done|].
  destruct (course_id c) as [id|]; [|apply IH].
  destruct (old_course c); [apply IH|].
  destruct (fetch id) as [|code l]; simpl; [done|].
  destruct (code =? 200) eqn:Hc; simpl; [rewrite Hc|]; apply IH.
Qed.

Lemma collect_degraded i : collect (degraded i) = collect i.
Proof.
  unfold collect, degraded; simpl. rewrite planner_method_degrade.
  destruct (planner_method _ _) as [st|]; simpl; [|done].
  unfold assignments_method; simpl.
  destruct (courses_response i) as [|code cs]; simpl; [done|].
  destruct (code =? 200) eqn:Hc; simpl; [rewrite Hc|done].
  apply courses_loop_degrade.
Qed.

Lemma courses_loop_raises fetch courses course id st :
  course ∈ courses -> course_id course = Some id ->
  old_course course = false -> fetch id = Raised ->
  courses_loop fetch courses st = None.
Proof.
  intros Hin Hid Hold Hraise. revert st.
  induction courses as [|c courses IH]; intros st; [by apply elem_of_nil in Hin|].
  apply elem_of_cons in Hin as [<-|Hin]; simpl.
  - by rewrite Hid, Hold, Hraise.
  - destruct (course_id c) as [id'|]; [|by apply IH].
    destruct (old_course c); [by apply IH|].
    destruct (fetch id') as [|code l]; [done|].
    destruct (code =? 200); by apply IH.
Qed.

Lemma collect_raises i : raises i -> collect i = None.
Proof.
  unfold collect, assignments_method.
  intros [Hp|[Hc|(cs & c & id & Hcs & Hin & Hid & Hold & Hr)]].
  - by rewrite Hp.
  - rewrite Hc. by destruct (planner_method _ _).
  - rewrite Hcs. destruct (planner_method _ _) as [st|]; simpl; [|done].
    eapply courses_loop_raises; eauto.
Qed.

(** *** Evaluation on the sample data *)

Example campus_items : get_canvas_all_items campus = [of_planner essay_1].
Proof. vm_compute. reflexivity. Qed.

Example extension_items :
  get_canvas_all_items extension = [of_assignment wr121 essay_1_raw].
Proof. vm_compute. reflexivity. Qed.

Example outage_items : get_canvas_all_items outage = [].
Proof. reflexivity. Qed.

(** *** The claims *)

(** C1 (amended).  The records collected from one instance never contain
    two with equal identity keys: both retrieval methods of the instance
    share one set of seen keys, and a record of the result is the first
    record of the instance with its key.  The aggregate over the configured
    instances is the concatenation of the per-instance results, in order,
    with no further deduplication. *)
Theorem identity_unique_per_instance (instances : list Instance) :
  Forall (fun i =>
            NoDup (identity <$> get_canvas_all_items i)
            /\ forall x, x ∈ get_canvas_all_items i ->
                 exists l1 l2, records i = l1 ++ x :: l2
                   /\ forall b, b ∈ l1 -> identity b <> identity x)
         instances
  /\ all_assignments instances = concat (get_canvas_all_items <$> instances).
Proof.
  split; [|apply all_assignments_concat].
  apply Forall_forall. intros i _. split.
  - apply get_canvas_all_items_NoDup.
  - apply get_canvas_all_items_first_seen.
Qed.

(** C1, as stated, fails: two instances that both list "Essay 1" leave two
    records with the same identity key in the aggregate. *)
Lemma aggregate_repeats_identity :
  ~ NoDup (identity <$> all_assignments [campus; extension]).
Proof.
  assert (identity <$> all_assignments [campus; extension]
          = [("Essay 1", Some "2026-02-01T23:59:00Z");
             ("Essay 1", Some "2026-02-01T23:59:00Z")]) as ->
    by (vm_compute; reflexivity).
  intros Hnd. apply NoDup_cons in Hnd as [Hnin _]. apply Hnin. left.
Qed.



(** The restriction to timestamps is needed: the key is the text
    [name_due_at], so with a [due_at] that is no timestamp, "Quiz_1" due
    "2026-02-01T23:59:00Z" and "Quiz" due "1_2026-02-01T23:59:00Z" would
    collapse although both fields differ. *)
Lemma concatenated_key_collision :
  ~ (forall x y : Assignment,
       add_item (add_item fresh x) y = add_item fresh x
       <-> name x = name y /\ due_at x = due_at y).
Proof.
  intros H. destruct (H quiz_a quiz_b) as [Hmerge _].
  assert (add_item (add_item fresh quiz_a) quiz_b = add_item fresh quiz_a) as Heq.
  { apply add_item_dropped, (add_items_seen [quiz_a] fresh). right. left. }
  destruct (Hmerge Heq) as [Hname _]. discriminate Hname.
Qed.

(** C7 (amended).  The collector does not retain a record of the course
    enumeration whose [due_at] is absent or empty: the result is the one of
    the same run without that record, and every record of the result that
    lacks a deadline was listed by the planner view. *)
Theorem undated_enumeration_record_skipped
    (i : Instance) (id code : Z) (l1 : list RawAssignment)
    (a : RawAssignment) (l2 : list RawAssignment) :
  assignments_response i id = Reply code (l1 ++ a :: l2) ->
  truthy (raw_due_at a) = false ->
  get_canvas_all_items (without_record i id code l1 l2) = get_canvas_all_items i
  /\ forall x, x ∈ get_canvas_all_items i -> truthy (due_at x) = false ->
       exists items p,
         planner_response i = Reply 200 items /\ p ∈ items /\ x = of_planner p.
Proof.
  intros Hresp Ha. split; [|apply undated_from_planner].
  unfold get_canvas_all_items, collect, assignments_method. simpl.
  destruct (planner_method _ _) as [st|]; simpl; [|done].
  destruct (courses_response i) as [|c cs]; [done|].
  destruct (c =? 200); [|done].
  by rewrite (courses_loop_without _ _ _ _ _ _ _ _ Hresp Ha).
Qed.

Lemma undated_enumeration_record_skipped_witness :
  get_canvas_all_items (without_record campus 7 200 [essay_1_raw] [])
  = get_canvas_all_items campus
  /\ forall x, x ∈ get_canvas_all_items campus -> truthy (due_at x) = false ->
       exists items p,
         planner_response campus = Reply 200 items /\ p ∈ items
         /\ x = of_planner p.
Proof.
  apply (undated_enumeration_record_skipped campus 7 200 [essay_1_raw] reading []);
    reflexivity.
Defined.

(** C7, as stated, fails: "Reading log" has no deadline, is listed by the
    course enumeration, and is not in the result. *)
Lemma undated_enumeration_record_lost :
  ~ (forall (i : Instance) (courses : list Course) (course : Course) (id : Z)
            (l : list RawAssignment) (a : RawAssignment),
       courses_response i = Reply 200 courses -> course ∈ courses ->
       course_id course = Some id -> old_course course = false ->
       assignments_response i id = Reply 200 l -> a ∈ l ->
       truthy (raw_due_at a) = false ->
       of_assignment course a ∈ get_canvas_all_items i).
Proof.
  intros H.
  specialize (H campus [wr121] wr121 7 [essay_1_raw; reading] reading
                eq_refl ltac:(left) eq_refl eq_refl eq_refl
                ltac:(right; left) eq_refl).
  rewrite campus_items in H. apply list_elem_of_singleton in H. discriminate H.
Qed.

(** C8 (amended).  A sub-call that answers with a status other than 200
    counts as an empty result for that sub-call only.  A sub-call that
    raises empties the result of its instance, records already gathered
    for that instance included.  Neither stops the run: the results of the
    other instances are returned unchanged. *)
Theorem failure_policy (i : Instance) (before after : list Instance) :
  get_canvas_all_items (degraded i) = get_canvas_all_items i
  /\ (raises i -> get_canvas_all_items i = [])
  /\ all_assignments (before ++ i :: after)
     = all_assignments before ++ get_canvas_all_items i ++ all_assignments after.
Proof.
  split; [|split].
  - unfold get_canvas_all_items. by rewrite collect_degraded.
  - intros Hr. unfold get_canvas_all_items. by rewrite collect_raises.
  - rewrite !all_assignments_concat, fmap_app, concat_app. reflexivity.
Qed.

Lemma failure_policy_witness : get_canvas_all_items outage = [].
Proof.
  apply (proj1 (proj2 (failure_policy outage [] []))).
  right. left. reflexivity.
Defined.

(** C8, as stated, fails for a sub-call that raises: when the course list
    cannot be fetched, the planner records already gathered are not
    returned. *)
Lemma raised_sub_call_discards_partial_results :
  ~ (forall (p : reply (list PlannerItem))
            (a : Z -> reply (list RawAssignment)),
       get_canvas_all_items
         {| planner_response := p; courses_response := Raised;
            assignments_response := a |}
       = get_canvas_all_items
           {| planner_response := p; courses_response := Reply 200 [];
              assignments_response := a |}).
Proof.
  intros H. specialize (H (Reply 200 [essay_1]) (fun _ => Raised)).
  vm_compute in H. discriminate H.
Qed.

End CollectorFacts.

(** ** The temporal classifier *)

Module ClassifierFacts.
Import PyStr Datetime Planner Policy Examples.

Lemma add_Some (dt delta r : Z) : add dt delta = Some r -> r = dt + delta.
Proof. unfold add. case_match; congruence. Qed.

(** The cutoff exists unless the clock is within three and a half days of
    [datetime.max]. *)
Lemma add_window (now : datetime) :
  MINDT <= now -> now + timedelta 3 12 <= MAXDT ->
  add now (timedelta 3 12) = Some (now + timedelta 3 12).
Proof.
  intros Hlo Hhi. unfold add.
  assert (0 <= timedelta 3 12) by (vm_compute; discriminate).
  destruct (MINDT <=? now + timedelta 3 12) eqn:H1; [|lia].
  destruct (now + timedelta 3 12 <=? MAXDT) eqn:H2; [done|lia].
Qed.

(** *** The sort *)

Lemma elem_of_insert_by {A : Type} (key : A -> Z) (x a : A) (l : list A) :
  x ∈ insert_by key a l <-> x = a \/ x ∈ l.
Proof.
  induction l as [|y l IH]; simpl.
  - rewrite list_elem_of_singleton, elem_of_nil. tauto.
  - destruct (key a <=? key y).
    + by rewrite elem_of_cons.
    + rewrite !elem_of_cons, IH. tauto.
Qed.

Lemma elem_of_sort_by {A : Type} (key : A -> Z) (x : A) (l : list A) :
  x ∈ sort_by key l <-> x ∈ l.
Proof.
  unfold sort_by. induction l as [|a l IH]; simpl; [done|].
  by rewrite elem_of_insert_by, elem_of_cons, IH.
Qed.

Lemma insert_by_perm {A : Type} (key : A -> Z) (a : A) (l : list A) :
  insert_by key a l ≡ₚ a :: l.
Proof.
  induction l as [|y l IH]; simpl; [done|].
  destruct (key a <=? key y); [done|].
  rewrite IH. apply Permutation_swap.
Qed.

Lemma sort_by_perm {A : Type} (key : A -> Z) (l : list A) :
  sort_by key l ≡ₚ l.
Proof.
  unfold sort_by. induction l as [|a l IH]; simpl; [done|].
  by rewrite insert_by_perm, IH.
Qed.

Lemma insert_by_sorted {A : Type} (key : A -> Z) (a : A) (l : list A) :
  Sorted (fun x y => key x <= key y) l ->
  Sorted (fun x y => key x <= key y) (insert_by key a l).
Proof.
  induction 1 as [|y l Hs IH Hhd]; simpl.
  - repeat constructor.
  - destruct (key a <=? key y) eqn:Hle.
    + apply Z.leb_le in Hle. repeat constructor; auto.
    + apply Z.leb_gt in Hle. constructor; [done|].
      destruct Hhd as [|z l Hyz]; simpl.
      * constructor. lia.
      * destruct (key a <=? key z); constructor; lia.
Qed.

Lemma sort_by_sorted {A : Type} (key : A -> Z) (l : list A) :
  Sorted (fun x y => key x <= key y) (sort_by key l).
Proof.
  unfold sort_by. induction l as [|a l IH]; simpl; [constructor|].
  by apply insert_by_sorted.
Qed.

(** The sort is stable: elements with the same key keep their order. *)
Lemma insert_by_filter {A : Type} (key : A -> Z) (k : Z) (a : A) (l : list A) :
  filter (fun x => key x = k) (insert_by key a l)
  = filter (fun x => key x = k) (a :: l).
Proof.
  induction l as [|y l IH]; simpl; [done|].
  destruct (key a <=? key y) eqn:Hle; [done|].
  apply Z.leb_gt in Hle. rewrite (filter_cons _ y), IH, !filter_cons.
  destruct (decide (key y = k)), (decide (key a = k)); try done. lia.
Qed.

Lemma sort_by_stable {A : Type} (key : A -> Z) (k : Z) (l : list A) :
  filter (fun x => key x = k) (sort_by key l) = filter (fun x => key x = k) l.
Proof.
  unfold sort_by. induction l as [|a l IH]; simpl; [done|].
  by rewrite insert_by_filter, !filter_cons, IH.
Qed.

(** *** The loop *)

Section WithLibrary.
Context {L : Library}.

(** What the loop appends for one assignment. *)
Lemma classify_Some now cutoff a a' :
  classify now cutoff a = Some a'
  <-> exists s l, due_at a = Some s /\ nonempty s = true
                  /\ to_pacific s = Some l
                  /\ now <= l <= cutoff /\ a' = enrich a l.
Proof.
  unfold classify, try_classify. split.
  - destruct (due_at a) as [s|]; [|done].
    destruct (nonempty s) eqn:Hs; simpl; [|done].
    destruct (to_pacific s) as [l|] eqn:Hl; simpl; [|done].
    destruct (l <? now) eqn:H1; [done|].
    destruct (l <=? cutoff) eqn:H2; [|done].
    apply Z.ltb_ge in H1. apply Z.leb_le in H2.
    intros [= <-]. exists s, l. by repeat split.
  - intros (s & l & -> & -> & -> & [H1 H2] & ->). simpl.
    apply Z.ltb_ge in H1. apply Z.leb_le in H2. by rewrite H1, H2.
Qed.

Lemma classify_unparsable now cutoff a s :
  due_at a = Some s -> strptime s = None -> classify now cutoff a = None.
Proof.
  intros Hd Hs. unfold classify, try_classify, to_pacific.
  rewrite Hd, Hs. simpl. by destruct (nonempty s).
Qed.

Lemma enrich_due_at a l : due_at (enrich a l) = due_at a.
Proof. reflexivity. Qed.

Lemma filter_due_next_3_days_Some now assignments :
  MINDT <= now -> now + timedelta 3 12 <= MAXDT ->
  filter_due_next_3_days now assignments
  = Some (sort_by sort_key
            (omap (classify now (now + timedelta 3 12)) assignments)).
Proof.
  intros Hlo Hhi. unfold filter_due_next_3_days.
  by rewrite add_window.
Qed.

Lemma elem_of_due_soon now assignments x :
  x ∈ sort_by sort_key (omap (classify now (now + timedelta 3 12)) assignments)
  <-> exists a, a ∈ assignments
                /\ classify now (now + timedelta 3 12) a = Some x.
Proof. by rewrite elem_of_sort_by, list_elem_of_omap. Qed.

(** The result is in ascending order of the local deadline. *)
Lemma due_soon_sorted now assignments due_soon :
  filter_due_next_3_days now assignments = Some due_soon ->
  Sorted (fun x y => sort_key x <= sort_key y) due_soon.
Proof.
  unfold filter_due_next_3_days.
  destruct (add now (timedelta 3 12)); simpl; [|done].
  intros [= <-]. apply sort_by_sorted.
Qed.

(** C2.  For an item whose [due_at] is present and yields the local
    deadline [l], the classifier keeps the item (enriched with [l]) if
    and only if [now <= l <= now + 3 days + 12 hours]; the cutoff is that
    single instant, and both ends are inclusive.  The classifier returns
    whenever the clock lets the cutoff be computed. *)
Theorem due_window now assignments a s l :
  MINDT <= now -> now + timedelta 3 12 <= MAXDT ->
  a ∈ assignments -> due_at a = Some s -> nonempty s = true ->
  to_pacific s = Some l ->
  exists due_soon,
    filter_due_next_3_days now assignments = Some due_soon
    /\ (enrich a l ∈ due_soon <-> now <= l <= now + timedelta 3 12).
Proof.
  intros Hlo Hhi Hin Hd Hs Hl. eexists. split.
  { by apply filter_due_next_3_days_Some. }
  rewrite elem_of_due_soon. split.
  - intros (a0 & _ & Hc). apply classify_Some in Hc
      as (s0 & l0 & _ & _ & _ & Hw & Heq).
    apply (f_equal due_datetime_parsed) in Heq. simpl in Heq.
    by injection Heq as ->.
  - intros [H1 H2]. exists a. split; [done|]. apply classify_Some.
    exists s, l. by repeat split.
Qed.

(** C9.  An item whose [due_at] does not parse is removed: the
    classifier returns, its result is the one it gives without the
    item, so every other item is processed as usual, and no element of
    the result carries that [due_at]. *)
Theorem unparsable_due_at_removed now l1 a l2 s :
  MINDT <= now -> now + timedelta 3 12 <= MAXDT ->
  due_at a = Some s -> strptime s = None ->
  exists due_soon,
    filter_due_next_3_days now (l1 ++ a :: l2) = Some due_soon
    /\ filter_due_next_3_days now (l1 ++ l2) = Some due_soon
    /\ forall x, x ∈ due_soon -> due_at x <> Some s.
Proof.
  intros Hlo Hhi Hd Hs. eexists. split; [|split].
  - rewrite filter_due_next_3_days_Some by done.
    rewrite omap_app. simpl.
    rewrite (classify_unparsable _ _ _ _ Hd Hs), <- omap_app. reflexivity.
  - by apply filter_due_next_3_days_Some.
  - intros x Hx. apply elem_of_due_soon in Hx as (a0 & _ & Hx).
    apply classify_Some in Hx as (s0 & l0 & Hd0 & _ & Hl0 & _ & ->).
    rewrite enrich_due_at, Hd0. intros [= ->].
    unfold to_pacific in Hl0. by rewrite Hs in Hl0.
Qed.

End WithLibrary.

(** *** Evaluation with the library instance *)

Example pacific_conversion :
  to_pacific (L := cpython) "2026-01-25T10:00:00Z" = Some (civil 2026 1 25 2 0 0).
Proof. vm_compute. reflexivity. Qed.

Example window_boundary :
  filter_due_next_3_days (L := cpython) new_year
    [due_outside; due_unparsable; due_inside; due_past]
  = Some [enrich due_inside (civil 2026 1 4 11 59 59)].
Proof. vm_compute. reflexivity. Qed.

Example due_exactly_now :
  filter_due_next_3_days (L := cpython) new_year
    [work "Lab" (Some "2026-01-01T08:00:00Z") 10 ""]
  = Some [enrich (work "Lab" (Some "2026-01-01T08:00:00Z") 10 "") new_year].
Proof. vm_compute. reflexivity. Qed.

Example due_exactly_at_cutoff :
  filter_due_next_3_days (L := cpython) new_year
    [work "Lab" (Some "2026-01-04T20:00:00Z") 10 ""]
  = Some [enrich (work "Lab" (Some "2026-01-04T20:00:00Z") 10 "")
            (civil 2026 1 4 12 0 0)].
Proof. vm_compute. reflexivity. Qed.

Lemma due_window_witness :
  exists due_soon,
    filter_due_next_3_days (L := cpython) new_year [due_past; due_inside]
    = Some due_soon
    /\ (enrich due_inside (civil 2026 1 4 11 59 59) ∈ due_soon
        <-> new_year <= civil 2026 1 4 11 59 59 <= new_year + timedelta 3 12).
Proof.
  apply (due_window (L := cpython) new_year [due_past; due_inside] due_inside
           "2026-01-04T19:59:59Z" (civil 2026 1 4 11 59 59)).
  - vm_compute. discriminate.
  - vm_compute. discriminate.
  - right. left.
  - reflexivity.
  - reflexivity.
  - vm_compute. reflexivity.
Defined.

Lemma unparsable_due_at_removed_witness :
  exists due_soon,
    filter_due_next_3_days (L := cpython) new_year
      ([due_inside] ++ due_unparsable :: [due_past]) = Some due_soon
    /\ filter_due_next_3_days (L := cpython) new_year
         ([due_inside] ++ [due_past]) = Some due_soon
    /\ forall x, x ∈ due_soon -> due_at x <> Some "January 4th".
Proof.
  apply (unparsable_due_at_removed (L := cpython) new_year [due_inside]
           due_unparsable [due_past] "January 4th").
  - vm_compute. discriminate.
  - vm_compute. discriminate.
  - reflexivity.
  - vm_compute. reflexivity.
Defined.

End ClassifierFacts.

(** ** The content curator *)

Module CuratorFacts.
Import PyStr Datetime Planner StudyGuide Policy Examples PyStrFacts.

Section WithLibrary.
Context {L : Library}.

Lemma try_unlocked_before_Some exam_date s b :
  try_unlocked_before exam_date s = Some b
  <-> exists unlock, to_pacific s = Some unlock
                     /\ b = (unlock <? exam_date).
Proof.
  unfold try_unlocked_before, to_pacific.
  destruct (strptime s) as [utc|]; simpl.
  - destruct (astimezone utc) as [pac|]; simpl.
    + split; [intros [= <-]; eauto | by intros (? & [= <-] & ->)].
    + split; [done | by intros (? & ? & _)].
  - split; [done | by intros (? & ? & _)].
Qed.

(** The loop body decides the inclusion rule. *)
Lemma module_selected_spec exam_date m :
  module_selected exam_date m = true <-> curator_policy exam_date m.
Proof.
  unfold module_selected, curator_policy.
  rewrite <- !contains_any_spec.
  destruct (contains_any exclude_keywords _);
    [split; [done | by intros [[] _]]|].
  destruct (module_unlock_at m) as [s|]; simpl.
  - destruct (nonempty s) eqn:Hs.
    + destruct (try_unlocked_before exam_date s) as [b|] eqn:Ht.
      * apply try_unlocked_before_Some in Ht as (unlock & Hu & ->).
        rewrite Z.ltb_lt. split.
        -- intros Hlt. split; [done|]. left. by exists s, unlock.
        -- intros [_ [(s' & u' & [= <-] & _ & Hu' & Hlt)|[? _]]]; [|done].
           congruence.
      * split; [done|].
        intros [_ [(s' & u' & [= <-] & _ & Hu' & Hlt)|[? _]]]; [|done].
        assert (try_unlocked_before exam_date s = Some (u' <? exam_date))
          by (apply try_unlocked_before_Some; eauto).
        congruence.
    + split.
      * intros Hw. split; [done|]. by right.
      * intros [_ [(s' & u' & [= <-] & ? & _)|[_ Hw]]]; [congruence|done].
  - split.
    + intros Hw. split; [done|]. by right.
    + by intros [_ [(s' & u' & ? & _)|[_ Hw]]].
Qed.

(** C3.  A container of the module list is selected exactly when its
    lower-cased name contains no denylist term and either it has an
    unlock instant that, in Pacific time, is strictly before the cutoff,
    or it has no unlock instant and its name contains one of the markers
    "week", "chapter", "ch " and "module".  A denylisted container is
    excluded whatever its timestamp; a container with neither a
    timestamp nor a marker is excluded. *)
Theorem curator_inclusion all_modules exam_date m :
  m ∈ get_modules_before_exam (Reply 200 all_modules) exam_date
  <-> m ∈ all_modules /\ curator_policy exam_date m.
Proof.
  simpl. rewrite list_elem_of_filter, module_selected_spec. tauto.
Qed.

(** C10.  A container whose [unlock_at] is present and does not parse
    is excluded, whatever its name: the marker fallback is not
    consulted for it. *)
Theorem malformed_unlock_excluded r exam_date m s :
  module_unlock_at m = Some s -> nonempty s = true -> strptime s = None ->
  m ∉ get_modules_before_exam r exam_date.
Proof.
  intros Hu Hs Hp. destruct r as [|code all_modules]; simpl.
  - apply not_elem_of_nil.
  - destruct (code =? 200); [|apply not_elem_of_nil].
    rewrite list_elem_of_filter. intros [Hsel _].
    unfold module_selected, try_unlocked_before in Hsel.
    destruct (contains_any exclude_keywords _); [done|].
    by rewrite Hu, Hs, Hp in Hsel.
Qed.

(** *** Content collection *)

Lemma module_content_concat site m acc :
  module_content site m acc
  = acc ++ concat (item_content site (default "Module" (module_name m))
                     <$> module_items m).
Proof.
  unfold module_content.
  generalize (module_items m) as items. intros items. revert acc.
  induction items as [|x items IH]; intros acc; simpl.
  - by rewrite app_nil_r.
  - by rewrite IH, app_assoc.
Qed.

Lemma modules_loop_concat site modules acc :
  foldl (fun all_content m => module_content site m all_content) acc modules
  = acc ++ concat ((fun m =>
                      concat (item_content site (default "Module" (module_name m))
                                <$> module_items m)) <$> modules).
Proof.
  revert acc. induction modules as [|m modules IH]; intros acc; simpl.
  - by rewrite app_nil_r.
  - by rewrite IH, module_content_concat, app_assoc.
Qed.

Lemma content_of_modules_concat site modules :
  content_of_modules site modules
  = concat ((fun m =>
               concat (item_content site (default "Module" (module_name m))
                         <$> module_items m)) <$> modules).
Proof. unfold content_of_modules. by rewrite modules_loop_concat. Qed.

End WithLibrary.

(** *** The question loop *)

Lemma already_listed_spec key qs :
  already_listed key qs = true
  <-> exists e, e ∈ qs /\ slice_to 100 (qq_question e) = key.
Proof.
  unfold already_listed. rewrite existsb_exists.
  split; intros (e & H1 & H2); exists e.
  - apply bool_decide_eq_true in H2. by rewrite <- list_elem_of_In in H1.
  - rewrite bool_decide_eq_true. by rewrite list_elem_of_In in H1.
Qed.

Lemma add_question_dropped quiz attempt qs q :
  add_question quiz attempt qs q = qs
  <-> clean_html (question_text q) = ""
      \/ exists e, e ∈ qs
           /\ slice_to 100 (qq_question e)
              = slice_to 100 (clean_html (question_text q)).
Proof.
  unfold add_question. rewrite <- already_listed_spec, <- nonempty_false.
  destruct (nonempty _); [|tauto].
  destruct (already_listed _ _); simpl; [tauto|].
  split; [|intros [?|?]; done].
  intros Heq. apply (f_equal length) in Heq.
  rewrite length_app in Heq. simpl in Heq. lia.
Qed.

(** C6 (amended).  Curation does not deduplicate content: the result
    lists, module by module and item by item, whatever each item yields,
    whether or not an earlier entry has the same text.  The comparison of
    the first 100 characters belongs to the question loop of the quiz
    collector only, which drops a question exactly when its cleaned text
    is empty or starts with the same 100 characters as an entry already
    listed, and so keeps the first. *)
Theorem content_kept_questions_deduplicated {L : Library}
    (site : CourseSite) (exam_date : datetime)
    (quiz_title : string) (attempt_num : Z)
    (all_quiz_questions : list QuizQuestion) (q : Question) :
  get_all_content_before_exam site exam_date
  = concat ((fun m =>
               concat (item_content site (default "Module" (module_name m))
                         <$> module_items m))
            <$> get_modules_before_exam (modules_response site) exam_date)
  /\ (add_question quiz_title attempt_num all_quiz_questions q
      = all_quiz_questions
      <-> clean_html (question_text q) = ""
          \/ exists e, e ∈ all_quiz_questions
               /\ slice_to 100 (qq_question e)
                  = slice_to 100 (clean_html (question_text q))).
Proof.
  split; [apply content_of_modules_concat | apply add_question_dropped].
Qed.

(** C6, as stated, fails: the two pages of "Week 1" have the same text and
    both stay in the result. *)
Lemma repeated_content_retained :
  ~ NoDup ((fun c => slice_to 100 (content_text c))
           <$> get_all_content_before_exam (L := cpython) econ exam_deadline).
Proof.
  assert ((fun c => slice_to 100 (content_text c))
          <$> get_all_content_before_exam (L := cpython) econ exam_deadline
          = ["Supply and demand."; "Supply and demand."]) as ->
    by (vm_compute; reflexivity).
  intros Hnd. apply NoDup_cons in Hnd as [Hnin _]. apply Hnin. left.
Qed.

(** *** Evaluation with the library instance *)

Example curation_cutoff :
  get_modules_before_exam (L := cpython)
    (Reply 200 [container "Week 5" None;
                container "Library Guide" (Some "2026-01-01T00:00:00Z");
                container "Week 9" (Some "2026-03-20T15:59:59Z");
                container "Week 10" (Some "2026-03-20T16:00:01Z");
                container "Week 11" (Some "TBD");
                container "Extras" None])
    exam_deadline
  = [container "Week 5" None;
     container "Week 9" (Some "2026-03-20T15:59:59Z")].
Proof. vm_compute. reflexivity. Qed.

Lemma malformed_unlock_excluded_witness :
  container "Week 11" (Some "TBD")
  ∉ get_modules_before_exam (L := cpython)
      (Reply 200 [container "Week 11" (Some "TBD")]) exam_deadline.
Proof.
  apply (malformed_unlock_excluded (L := cpython)
           (Reply 200 [container "Week 11" (Some "TBD")]) exam_deadline
           (container "Week 11" (Some "TBD")) "TBD");
    reflexivity.
Defined.

End CuratorFacts.

(** ** More on the collector *)

Module CollectorMore.
Import PyStr Datetime Planner Policy Examples Terms PyStrFacts CollectorFacts.

Lemma add_items_sublist (l : list Assignment) (st : collector) :
  exists l', all_items (foldl add_item st l) = all_items st ++ l'
             /\ l' `sublist_of` l.
Proof.
  revert st. induction l as [|a l IH]; intros st; simpl.
  - exists []. by rewrite app_nil_r.
  - destruct (IH (add_item st a)) as (l' & -> & Hsub). unfold add_item.
    destruct (decide (item_key a ∈ seen_items st)); simpl.
    + exists l'. split; [done|]. by apply sublist_cons.
    + exists (a :: l'). rewrite <- app_assoc. split; [done|].
      by apply sublist_skip.
Qed.

Lemma add_items_represented (l : list Assignment) (r : Assignment) :
  r ∈ l ->
  exists x, x ∈ all_items (foldl add_item fresh l) /\ item_key x = item_key r.
Proof.
  intros Hr. destruct (add_items_ok l fresh fresh_ok) as [_ Hseen].
  assert (item_key r ∈ seen_items (foldl add_item fresh l)) as Hk.
  { apply add_items_seen. right. by apply list_elem_of_fmap_2. }
  apply Hseen, list_elem_of_fmap in Hk as (x & Hkey & Hx). eauto.
Qed.

(** X1.  When no sub-call raises and the records of the instance carry
    timestamps (every [due_at] is absent or a text without underscore other
    than the word None), the result of one instance is the records of the
    instance with some left out and the order kept, and no identity is
    lost: every record of the instance has a record with its name and its
    [due_at] in the result. *)
Theorem merge_keeps_order_and_identities (i : Instance) :
  is_Some (collect i) ->
  Forall (fun r => plain_due (due_at r)) (records i) ->
  get_canvas_all_items i `sublist_of` records i
  /\ forall r, r ∈ records i ->
       exists x, x ∈ get_canvas_all_items i /\ identity x = identity r.
Proof.
  intros [st Hc] Hplain. unfold get_canvas_all_items. rewrite Hc.
  apply collect_records in Hc as ->.
  destruct (add_items_sublist (records i) fresh) as (l' & Hl' & Hsub).
  simpl in Hl'. split; [by rewrite Hl'|].
  intros r Hr.
  destruct (add_items_represented (records i) r Hr) as (x & Hx & Hkey).
  exists x. split; [done|].
  assert (x ∈ records i) as Hin.
  { rewrite Hl' in Hx. by apply (elem_of_sublist _ _ _ Hx). }
  pose proof (proj1 (Forall_forall _ _) Hplain) as Hall.
  destruct (item_key_inj x r) as [Hn Hd]; [by apply Hall|by apply Hall|done|].
  unfold identity. by rewrite Hn, Hd.
Qed.

Lemma merge_keeps_order_and_identities_witness :
  get_canvas_all_items campus `sublist_of` records campus
  /\ forall r, r ∈ records campus ->
       exists x, x ∈ get_canvas_all_items campus /\ identity x = identity r.
Proof.
  apply (merge_keeps_order_and_identities campus).
  - vm_compute. eauto.
  - repeat constructor; discriminate.
Defined.

(** X2.  The planner view takes precedence: when no sub-call raises, the
    record kept for the key of a planner record is itself a planner
    record, whatever the course enumeration lists under that key. *)
Theorem planner_record_preferred (i : Instance) (p : Assignment) :
  is_Some (collect i) -> p ∈ planner_records i ->
  exists x, x ∈ get_canvas_all_items i
            /\ x ∈ planner_records i
            /\ item_key x = item_key p.
Proof.
  intros [st Hc] Hp. unfold get_canvas_all_items. rewrite Hc.
  apply collect_records in Hc as ->.
  destruct (add_items_represented (records i) p) as (x & Hx & Hkey).
  { apply elem_of_app. by left. }
  exists x. split; [done|]. split; [|done].
  destruct (add_items_first_seen _ _ _ Hx) as [Hin|(l1 & l2 & Hsplit & _ & Hfirst)].
  { by apply elem_of_nil in Hin. }
  unfold records in Hsplit.
  apply app_eq_inv in Hsplit as [(k & HP & Hk)|(k & Hl1 & _)].
  - destruct k as [|y k]; simpl in Hk.
    + rewrite app_nil_r in HP. subst l1. by destruct (Hfirst p Hp).
    + injection Hk as -> _. rewrite HP. apply elem_of_app. right. left.
  - destruct (Hfirst p); [|done]. rewrite Hl1. apply elem_of_app. by left.
Qed.

Lemma planner_record_preferred_witness :
  exists x, x ∈ get_canvas_all_items campus
            /\ x ∈ planner_records campus
            /\ item_key x = item_key (of_planner essay_1).
Proof.
  apply (planner_record_preferred campus (of_planner essay_1)).
  - vm_compute. eauto.
  - left.
Defined.

Lemma courses_loop_with_assignments i id r courses st :
  (forall c, c ∈ courses -> course_id c = Some id -> old_course c = true) ->
  courses_loop (assignments_response (with_assignments i id r)) courses st
  = courses_loop (assignments_response i) courses st.
Proof.
  revert st. induction courses as [|c courses IH]; intros st Hold; simpl; [done|].
  assert (forall st', courses_loop (assignments_response (with_assignments i id r)) courses st'
                      = courses_loop (assignments_response i) courses st') as IH'.
  { intros st'. apply IH. intros c' Hc'. apply Hold. by right. }
  destruct (course_id c) as [id'|] eqn:Hid; [|apply IH'].
  destruct (old_course c) eqn:Hc; [apply IH'|].
  destruct (decide (id' = id)) as [->|Hne].
  - rewrite (Hold c) in Hc; [done|left|done].
  - rewrite bool_decide_eq_false_2 by done.
    destruct (assignments_response i id') as [|code l]; [done|].
    destruct (code =? 200); apply IH'.
Qed.

(** X3.  The assignments of a course are requested only for courses that
    have an id and are neither completed nor deleted: when every course
    listed under an id is completed or deleted, the result does not depend
    on what the instance would answer for that id, not even on whether the
    request would raise. *)
Theorem old_courses_not_fetched (i : Instance) (id : Z)
    (r : reply (list RawAssignment)) (code : Z) (courses : list Course) :
  courses_response i = Reply code courses ->
  (forall c, c ∈ courses -> course_id c = Some id -> old_course c = true) ->
  get_canvas_all_items (with_assignments i id r) = get_canvas_all_items i.
Proof.
  intros Hcs Hold.
  unfold get_canvas_all_items, collect, assignments_method.
  change (planner_response (with_assignments i id r)) with (planner_response i).
  change (courses_response (with_assignments i id r)) with (courses_response i).
  destruct (planner_method _ _) as [st|]; simpl; [|done].
  rewrite Hcs. destruct (code =? 200); [|done].
  pose proof (courses_loop_with_assignments i id r courses st Hold) as Heq.
  simpl in Heq. by rewrite Heq.
Qed.

Lemma old_courses_not_fetched_witness :
  get_canvas_all_items
    (with_assignments
       {| planner_response := Reply 200 [essay_1];
          courses_response :=
            Reply 200 [ {| course_id := Some 3;
                           course_workflow_state := Some "completed";
                           course_title := Some "WR 115" |} ];
          assignments_response := fun _ => Reply 200 [essay_1_raw] |}
       3 Raised)
  = get_canvas_all_items
      {| planner_response := Reply 200 [essay_1];
         courses_response :=
           Reply 200 [ {| course_id := Some 3;
                          course_workflow_state := Some "completed";
                          course_title := Some "WR 115" |} ];
         assignments_response := fun _ => Reply 200 [essay_1_raw] |}.
Proof.
  eapply old_courses_not_fetched; [reflexivity|].
  intros c Hc _. apply list_elem_of_singleton in Hc as ->. reflexivity.
Defined.

End CollectorMore.

(** ** More on the temporal classifier *)

Module ClassifierMore.
Import PyStr Datetime Planner Policy Examples Terms Samples ClassifierFacts.

Lemma sorted_keys {A : Type} (key : A -> Z) (l : list A) :
  Sorted (fun x y => key x <= key y) l -> Sorted Z.le (key <$> l).
Proof.
  induction 1 as [|x l _ IH Hhd]; simpl; constructor; [done|].
  destruct Hhd; simpl; by constructor.
Qed.

(** Sorting a sorted list changes nothing. *)
Lemma sort_by_sorted_id {A : Type} (key : A -> Z) (l : list A) :
  Sorted (fun x y => key x <= key y) l -> sort_by key l = l.
Proof.
  unfold sort_by. induction 1 as [|x l _ IH Hhd]; simpl; [done|].
  rewrite IH. destruct Hhd as [|y l Hxy]; simpl; [done|].
  apply Z.leb_le in Hxy. by rewrite Hxy.
Qed.

Lemma omap_fixed {A : Type} (f : A -> option A) (l : list A) :
  (forall x, x ∈ l -> f x = Some x) -> omap f l = l.
Proof.
  induction l as [|a l IH]; intros Hf; simpl; [done|].
  rewrite (Hf a) by left. simpl. f_equal. apply IH. intros x Hx. apply Hf. by right.
Qed.

Lemma sublist_pair_of_filter {A : Type} (P : A -> Prop)
    `{!forall x, Decision (P x)} (x y : A) (l l1 l2 l3 : list A) :
  P x -> P y -> l = l1 ++ x :: l2 ++ y :: l3 ->
  [x; y] `sublist_of` filter P l.
Proof.
  intros Hx Hy ->.
  rewrite filter_app, filter_cons, decide_True by done.
  rewrite filter_app, filter_cons, decide_True by done.
  apply sublist_inserts_l, sublist_skip, sublist_inserts_l, sublist_skip.
  apply sublist_nil_l.
Qed.

Section WithLibrary.
Context {L : Library}.

Lemma due_soon_unfold now assignments due_soon :
  filter_due_next_3_days now assignments = Some due_soon ->
  due_soon = sort_by sort_key
               (omap (classify now (now + timedelta 3 12)) assignments).
Proof.
  unfold filter_due_next_3_days.
  destruct (add now (timedelta 3 12)) as [cutoff|] eqn:Hc; simpl; [|done].
  apply add_Some in Hc as ->. by intros [= <-].
Qed.

Lemma classify_parsed now cutoff a x :
  classify now cutoff a = Some x -> due_datetime_parsed x = Some (sort_key x).
Proof.
  intros (s & l & _ & _ & _ & _ & ->)%classify_Some. reflexivity.
Qed.

(** X4.  Whenever the classifier returns, every record of its result
    carries a local deadline, and these deadlines, read in the order of the
    result, ascend. *)
Theorem due_soon_ascending now assignments due_soon :
  filter_due_next_3_days now assignments = Some due_soon ->
  exists deadlines,
    due_datetime_parsed <$> due_soon = Some <$> deadlines
    /\ Sorted Z.le deadlines.
Proof.
  intros Hf. exists (sort_key <$> due_soon). split.
  - rewrite <- list_fmap_compose. apply list_fmap_ext. intros n x Hx. simpl.
    apply list_elem_of_lookup_2 in Hx.
    rewrite (due_soon_unfold _ _ _ Hf) in Hx.
    apply elem_of_due_soon in Hx as (a & _ & Hc). by eapply classify_parsed.
  - apply sorted_keys. by eapply due_soon_sorted.
Qed.

(** X5.  A record that the classifier does not keep leaves no trace: a
    record without [due_at], or due before [now], or due after the cutoff,
    can be removed from the input without changing the result. *)
Theorem dropped_record_leaves_no_trace now l1 a l2 :
  truthy (due_at a) = false
  \/ (exists s l, due_at a = Some s /\ to_pacific s = Some l
        /\ (l < now \/ now + timedelta 3 12 < l)) ->
  filter_due_next_3_days now (l1 ++ a :: l2)
  = filter_due_next_3_days now (l1 ++ l2).
Proof.
  intros Ha. unfold filter_due_next_3_days.
  destruct (add now (timedelta 3 12)) as [cutoff|] eqn:Hc; simpl; [|done].
  apply add_Some in Hc as ->.
  assert (classify now (now + timedelta 3 12) a = None) as Hnone.
  { destruct (classify now (now + timedelta 3 12) a) as [x|] eqn:Hx; [|done].
    apply classify_Some in Hx as (s & l & Hd & Hs & Hl & Hw & _).
    destruct Ha as [Ha|(s' & l' & Hd' & Hl' & Hout)].
    - rewrite Hd in Ha. simpl in Ha. congruence.
    - rewrite Hd in Hd'. injection Hd' as <-. rewrite Hl in Hl'.
      injection Hl' as <-. lia. }
  by rewrite !omap_app; simpl; rewrite Hnone.
Qed.

(** X6.  Classifying the result again, at the same clock reading, returns
    it unchanged. *)
Theorem classifying_twice_changes_nothing now assignments due_soon :
  filter_due_next_3_days now assignments = Some due_soon ->
  filter_due_next_3_days now due_soon = Some due_soon.
Proof.
  intros Hf. pose proof (due_soon_sorted _ _ _ Hf) as Hsorted.
  pose proof (due_soon_unfold _ _ _ Hf) as Hout.
  unfold filter_due_next_3_days in *.
  destruct (add now (timedelta 3 12)) as [cutoff|] eqn:Hc; simpl in *; [|done].
  apply add_Some in Hc as ->. f_equal.
  rewrite omap_fixed; [by apply sort_by_sorted_id|].
  intros x Hx. rewrite Hout in Hx.
  apply elem_of_due_soon in Hx as (a & _ & Hx).
  apply classify_Some in Hx as (s & l & Hd & Hs & Hl & [H1 H2] & ->).
  apply classify_Some. exists s, l. by repeat split.
Qed.

(** X7.  Ties keep the order of the source: when two kept records have the
    same local deadline, the one that comes first in the input comes first
    in the result. *)
Theorem ties_keep_source_order now l1 a l2 b l3 sa sb l due_soon :
  filter_due_next_3_days now (l1 ++ a :: l2 ++ b :: l3) = Some due_soon ->
  due_at a = Some sa -> nonempty sa = true -> to_pacific sa = Some l ->
  due_at b = Some sb -> nonempty sb = true -> to_pacific sb = Some l ->
  now <= l <= now + timedelta 3 12 ->
  [enrich a l; enrich b l] `sublist_of` due_soon.
Proof.
  intros Hf Hda Hsa Hla Hdb Hsb Hlb [H1 H2].
  apply due_soon_unfold in Hf as ->.
  assert (classify now (now + timedelta 3 12) a = Some (enrich a l)) as Ha.
  { apply classify_Some. exists sa, l. by repeat split. }
  assert (classify now (now + timedelta 3 12) b = Some (enrich b l)) as Hb.
  { apply classify_Some. exists sb, l. by repeat split. }
  etrans; [|apply (sublist_filter (fun x => sort_key x = l))].
  rewrite sort_by_stable.
  eapply (sublist_pair_of_filter (fun x => sort_key x = l)); [done|done|].
  rewrite omap_app. simpl. rewrite Ha, omap_app. simpl. rewrite Hb. reflexivity.
Qed.

End WithLibrary.

Lemma due_soon_ascending_witness :
  exists deadlines,
    due_datetime_parsed <$> week_due_soon = Some <$> deadlines
    /\ Sorted Z.le deadlines.
Proof.
  apply (due_soon_ascending (L := cpython) new_year week_work).
  vm_compute. reflexivity.
Defined.

Lemma dropped_record_leaves_no_trace_witness :
  filter_due_next_3_days (L := cpython) new_year ([due_inside] ++ due_past :: [])
  = filter_due_next_3_days (L := cpython) new_year ([due_inside] ++ []).
Proof.
  apply (dropped_record_leaves_no_trace (L := cpython) new_year [due_inside] due_past []).
  right. exists "2026-01-01T07:59:59Z", (civil 2025 12 31 23 59 59).
  split; [reflexivity|]. split; [vm_compute; reflexivity|].
  left. vm_compute. reflexivity.
Defined.

Lemma classifying_twice_changes_nothing_witness :
  filter_due_next_3_days (L := cpython) new_year
    [enrich due_inside (civil 2026 1 4 11 59 59)]
  = Some [enrich due_inside (civil 2026 1 4 11 59 59)].
Proof.
  apply (classifying_twice_changes_nothing (L := cpython) new_year
           [due_outside; due_unparsable; due_inside; due_past]).
  vm_compute. reflexivity.
Defined.

Lemma ties_keep_source_order_witness :
  [enrich due_inside (civil 2026 1 4 11 59 59);
   enrich (work "Lab 1b" (Some "2026-01-04T19:59:59Z") 5 "") (civil 2026 1 4 11 59 59)]
  `sublist_of`
  [enrich due_inside (civil 2026 1 4 11 59 59);
   enrich (work "Lab 1b" (Some "2026-01-04T19:59:59Z") 5 "") (civil 2026 1 4 11 59 59)].
Proof.
  apply (ties_keep_source_order (L := cpython) new_year
           [] due_inside [due_past]
           (work "Lab 1b" (Some "2026-01-04T19:59:59Z") 5 "") []
           "2026-01-04T19:59:59Z" "2026-01-04T19:59:59Z"
           (civil 2026 1 4 11 59 59)).
  - vm_compute. reflexivity.
  - reflexivity.
  - reflexivity.
  - vm_compute. reflexivity.
  - reflexivity.
  - reflexivity.
  - vm_compute. reflexivity.
  - vm_compute. split; discriminate.
Defined.

End ClassifierMore.

(** ** [clean_html] and the page slug *)

Module TextFacts.
Import PyStr Datetime Planner StudyGuide Policy Examples Terms PyStrFacts.

Lemma collapse_spaces_loose (s : string) (in_run : bool) :
  loosely_spaced (collapse_spaces in_run s)
  /\ (in_run = true -> starts_clean (collapse_spaces in_run s)).
Proof.
  revert in_run. induction s as [|c s IH]; intros in_run; simpl; [done|].
  destruct (is_space c) eqn:Hc.
  - destruct in_run.
    + apply IH.
    + destruct (IH true) as [Hl Hs]. simpl. split; [|done].
      split; [|done]. intros _. split; [done|]. by apply Hs.
  - destruct (IH false) as [Hl _]. simpl. split.
    + split; [|done]. intros Hsp. congruence.
    + done.
Qed.

Lemma lstrip_loose (s : string) :
  loosely_spaced s -> loosely_spaced (lstrip s) /\ starts_clean (lstrip s).
Proof.
  induction s as [|c s IH]; simpl; [done|].
  intros [Hc Hl]. destruct (is_space c) eqn:Hsp; [by apply IH|].
  simpl. by rewrite Hsp.
Qed.

Lemma rstrip_head (c : ascii) (s : string) :
  rstrip (String c s) = "" \/ exists t, rstrip (String c s) = String c t.
Proof. simpl. destruct (is_space c && negb (nonempty (rstrip s))); eauto. Qed.

Lemma rstrip_starts_clean (s : string) :
  starts_clean s -> starts_clean (rstrip s).
Proof.
  destruct s as [|c s]; [done|]. intros Hc.
  destruct (rstrip_head c s) as [->|[t ->]]; done.
Qed.

Lemma rstrip_single_spaced (s : string) :
  loosely_spaced s -> single_spaced (rstrip s).
Proof.
  induction s as [|c s IH]; simpl; [done|].
  intros [Hc Hl]. specialize (IH Hl).
  destruct (is_space c) eqn:Hsp; simpl.
  - destruct (rstrip s) as [|d t] eqn:Hr; simpl; [done|].
    destruct (Hc eq_refl) as [-> Hclean].
    split; [done|]. split; [|done]. intros _.
    apply rstrip_starts_clean in Hclean. by rewrite Hr in Hclean.
  - split; [intros; congruence|]. split; [intros; congruence|done].
Qed.

Lemma single_spaced_ends_clean (s : string) :
  single_spaced s -> ends_clean s.
Proof.
  induction s as [|c s IH]; simpl; [done|].
  intros (_ & Hnext & Hs). destruct s as [|d s]; [|by apply IH].
  destruct (is_space c); [by destruct Hnext|done].
Qed.

Lemma strip_collapse_normal (s : string) :
  single_spaced (strip (collapse_spaces false s))
  /\ starts_clean (strip (collapse_spaces false s)).
Proof.
  unfold strip. destruct (collapse_spaces_loose s false) as [Hl _].
  apply lstrip_loose in Hl as [Hl Hs]. split.
  - by apply rstrip_single_spaced.
  - by apply rstrip_starts_clean.
Qed.

(** X8.  The text that [clean_html] returns is in normal form, whatever the
    input: it neither starts nor ends with white space, and white space
    occurs in it only as single blanks. *)
Theorem clean_html_normal_form (text : option string) :
  starts_clean (clean_html text)
  /\ ends_clean (clean_html text)
  /\ single_spaced (clean_html text).
Proof.
  assert (single_spaced (clean_html text) /\ starts_clean (clean_html text))
    as [Hs Hc].
  { unfold clean_html. destruct text as [s|]; [|done].
    destruct (nonempty s); simpl; [|done]. apply strip_collapse_normal. }
  split; [done|]. split; [by apply single_spaced_ends_clean|done].
Qed.

Lemma tag_length_free (s : string) :
  free_of "<"%char s -> tag_length s = None.
Proof.
  destruct s as [|c s]; [done|]. simpl. intros [Hc _].
  destruct c as [[] [] [] [] [] [] [] []]; done.
Qed.

Lemma remove_tags_free (s : string) :
  free_of "<"%char s -> remove_tags O s = s.
Proof.
  induction s as [|c s IH]; [done|]. intros Hfree.
  change (remove_tags 0 (String c s))
    with (match tag_length (String c s) with
          | Some (S k) => remove_tags k s
          | _ => String c (remove_tags 0 s)
          end).
  rewrite (tag_length_free _ Hfree). destruct Hfree as [_ Hs]. by rewrite IH.
Qed.

Lemma collapse_spaces_free (c : ascii) (s : string) (in_run : bool) :
  c <> " "%char -> free_of c s -> free_of c (collapse_spaces in_run s).
Proof.
  intros Hc. revert in_run. induction s as [|d s IH]; intros in_run; simpl; [done|].
  intros [Hd Hs]. destruct (is_space d); [destruct in_run|]; simpl; auto.
Qed.

Lemma lstrip_free (c : ascii) (s : string) :
  free_of c s -> free_of c (lstrip s).
Proof.
  induction s as [|d s IH]; simpl; [done|].
  intros [Hd Hs]. destruct (is_space d); simpl; auto.
Qed.

Lemma rstrip_free (c : ascii) (s : string) :
  free_of c s -> free_of c (rstrip s).
Proof.
  induction s as [|d s IH]; simpl; [done|].
  intros [Hd Hs]. destruct (is_space d && negb (nonempty (rstrip s))); simpl; auto.
Qed.

Lemma collapse_spaces_clean (s : string) :
  starts_clean s -> collapse_spaces true s = collapse_spaces false s.
Proof. destruct s as [|d s]; simpl; [done|]. by intros ->. Qed.

Lemma collapse_spaces_loose_id (s : string) :
  loosely_spaced s -> collapse_spaces false s = s.
Proof.
  induction s as [|c s IH]; simpl; [done|].
  intros [Hc Hl]. destruct (is_space c) eqn:Hsp.
  - destruct (Hc eq_refl) as [-> Hclean].
    by rewrite collapse_spaces_clean, IH.
  - by rewrite IH.
Qed.

Lemma single_spaced_loose (s : string) : single_spaced s -> loosely_spaced s.
Proof.
  induction s as [|c s IH]; simpl; [done|].
  intros (Hc & Hnext & Hs). split; [|by apply IH].
  intros Hsp. split; [by apply Hc|]. specialize (Hnext Hsp).
  by destruct s.
Qed.

Lemma lstrip_clean_id (s : string) : starts_clean s -> lstrip s = s.
Proof. destruct s as [|c s]; simpl; [done|]. by intros ->. Qed.

Lemma rstrip_single_id (s : string) : single_spaced s -> rstrip s = s.
Proof.
  induction s as [|c s IH]; simpl; [done|].
  intros (Hc & Hnext & Hs). rewrite (IH Hs).
  destruct (is_space c) eqn:Hsp; [|done].
  specialize (Hnext eq_refl). by destruct s.
Qed.

(** X9.  On a text without opening angle bracket [clean_html] only
    normalises white space, and it is idempotent there: cleaning the cleaned
    text returns it unchanged. *)
Theorem clean_html_idempotent_without_tags (s : string) :
  free_of "<"%char s ->
  clean_html (Some s) = strip (collapse_spaces false s)
  /\ clean_html (Some (clean_html (Some s))) = clean_html (Some s).
Proof.
  intros Hfree.
  assert (clean_html (Some s) = strip (collapse_spaces false s)) as Heq.
  { unfold clean_html. destruct s as [|c s]; [done|]. simpl negb.
    cbv iota. by rewrite remove_tags_free. }
  split; [done|]. rewrite Heq.
  set (r := strip (collapse_spaces false s)).
  assert (free_of "<"%char r) as Hr.
  { apply rstrip_free, lstrip_free, collapse_spaces_free; done. }
  destruct (strip_collapse_normal s) as [Hsingle Hclean]. fold r in Hsingle, Hclean.
  unfold clean_html. destruct (nonempty r) eqn:Hne; simpl.
  - rewrite remove_tags_free by done.
    rewrite collapse_spaces_loose_id by (by apply single_spaced_loose).
    unfold strip. rewrite lstrip_clean_id by done. by apply rstrip_single_id.
  - by apply nonempty_false in Hne.
Qed.

Lemma clean_html_idempotent_without_tags_witness :
  clean_html (Some "  due   Friday ")
  = strip (collapse_spaces false "  due   Friday ")
  /\ clean_html (Some (clean_html (Some "  due   Friday ")))
     = clean_html (Some "  due   Friday ").
Proof.
  apply (clean_html_idempotent_without_tags "  due   Friday ").
  repeat split; discriminate.
Defined.

(** *** The page slug *)

Lemma contains_char_false (c : ascii) (s : string) :
  contains (String c "") s = false <-> free_of c s.
Proof.
  induction s as [|d s IH]; [done|].
  rewrite contains_cons, orb_false_iff, IH. simpl.
  rewrite andb_true_r, bool_decide_eq_false. split.
  - intros [Hd Hs]. split; [congruence|done].
  - intros [Hd Hs]. split; [congruence|done].
Qed.

(** X10.  The slug taken from a page URL is the text after its last slash:
    it contains no slash, and what precedes it in the URL is empty or ends
    with a slash. *)
Theorem last_segment_after_last_slash (page_url : string) :
  exists pre,
    page_url = pre +:+ last_segment page_url
    /\ free_of "/"%char (last_segment page_url)
    /\ (pre = "" \/ exists pre', pre = pre' +:+ "/").
Proof.
  induction page_url as [|c s IH].
  - exists "". repeat split. by left.
  - destruct IH as (pre & Hpre & Hfree & Hend). simpl.
    destruct (bool_decide (c = "/"%char)) eqn:Hc; simpl.
    + exists (String c pre). split; [by rewrite append_cons, <- Hpre|].
      split; [done|]. right. apply bool_decide_eq_true in Hc as ->.
      destruct Hend as [->|[pre' ->]]; [by exists ""|by exists (String "/" pre')].
    + apply bool_decide_eq_false in Hc.
      destruct (contains "/" s) eqn:Hs.
      * exists (String c pre). split; [by rewrite append_cons, <- Hpre|].
        split; [done|]. right. destruct Hend as [->|[pre' ->]].
        -- rewrite append_nil in Hpre. rewrite <- Hpre in Hfree.
           apply contains_char_false in Hfree. congruence.
        -- by exists (String c pre').
      * exists "". split; [done|]. split; [|by left].
        split; [done|]. by apply contains_char_false.
Qed.

End TextFacts.

(** ** More on the curator and the quiz collector *)

Module CuratorMore.
Import PyStr Datetime Planner StudyGuide Policy Examples Guide Terms
       PyStrFacts CuratorFacts.

Lemma elem_of_concat {A : Type} (x : A) (ls : list (list A)) :
  x ∈ concat ls <-> exists l, x ∈ l /\ l ∈ ls.
Proof.
  induction ls as [|l ls IH]; simpl.
  - split; [by intros ?%elem_of_nil | by intros (? & _ & ?%elem_of_nil)].
  - rewrite elem_of_app, IH. split.
    + intros [?|(l' & ? & ?)]; [exists l; split; [done|left] | exists l'; split; [done|by right]].
    + intros (l' & Hx & [->|?]%elem_of_cons); [by left | right; eauto].
Qed.

Lemma item_content_elem site module_name item c :
  c ∈ item_content site module_name item ->
  content_module c = module_name
  /\ nonempty (content_text c) = true
  /\ (content_type c = "Page" \/ content_type c = "Assignment"
      \/ content_type c = "Discussion").
Proof.
  unfold item_content, get_page_content.
  repeat (case_match; try (by intros ?%elem_of_nil));
    intros ->%list_elem_of_singleton; simpl; simplify_eq; auto.
Qed.

(** X11.  Every entry of the curated content has a non-empty text, is a
    Page, an Assignment or a Discussion, and stems from a module of the
    course's module list that satisfies the inclusion rule for the exam
    date: no entry comes from a denylisted module or from a module unlocked
    at or after the exam. *)
Theorem content_only_from_selected_modules {L : Library}
    (site : CourseSite) (exam_date : datetime) (c : Content) :
  c ∈ get_all_content_before_exam site exam_date ->
  nonempty (content_text c) = true
  /\ (content_type c = "Page" \/ content_type c = "Assignment"
      \/ content_type c = "Discussion")
  /\ exists all_modules m,
       modules_response site = Reply 200 all_modules
       /\ m ∈ all_modules
       /\ curator_policy exam_date m
       /\ content_module c = default "Module" (module_name m).
Proof.
  unfold get_all_content_before_exam. rewrite content_of_modules_concat.
  intros (l & Hc & Hl)%elem_of_concat.
  apply list_elem_of_fmap in Hl as (m & -> & Hm).
  apply elem_of_concat in Hc as (l & Hc & Hl).
  apply list_elem_of_fmap in Hl as (item & -> & _).
  apply item_content_elem in Hc as (Hmod & Htext & Htype).
  split; [done|]. split; [done|].
  destruct (modules_response site) as [|code all_modules] eqn:Hr;
    [by apply elem_of_nil in Hm|].
  simpl in Hm. destruct (code =? 200) eqn:Hcode; [|by apply elem_of_nil in Hm].
  apply Z.eqb_eq in Hcode as ->.
  apply list_elem_of_filter in Hm as [Hsel Hin].
  exists all_modules, m. split; [done|]. split; [done|].
  split; [by apply module_selected_spec|done].
Qed.

Lemma content_only_from_selected_modules_witness :
  nonempty "Supply and demand." = true
  /\ ("Page" = "Page" \/ "Page" = "Assignment" \/ "Page" = "Discussion")
  /\ exists all_modules m,
       modules_response econ = Reply 200 all_modules
       /\ m ∈ all_modules
       /\ curator_policy (L := cpython) exam_deadline m
       /\ "Week 1" = default "Module" (module_name m).
Proof.
  apply (content_only_from_selected_modules (L := cpython) econ exam_deadline
           {| content_type := "Page"; content_module := "Week 1";
              content_title := "lecture-1"; content_text := "Supply and demand." |}).
  vm_compute. left.
Defined.

(** *** The question loop *)

Lemma slice_to_length (n : nat) (s : string) :
  String.length (slice_to n s) = Nat.min n (String.length s).
Proof.
  revert s. induction n as [|n IH]; intros [|c s]; simpl; try done.
  by rewrite IH.
Qed.

Lemma slice_to_append (n : nat) (s t : string) :
  (n <= String.length s)%nat -> slice_to n (s +:+ t) = slice_to n s.
Proof.
  revert s. induction n as [|n IH]; intros s Hn.
  - by destruct (s +:+ t), s.
  - destruct s as [|c s]; simpl in Hn; [lia|].
    rewrite append_cons. simpl. f_equal. apply IH. lia.
Qed.

Lemma append_empty_r (s : string) : s +:+ "" = s.
Proof. induction s as [|c s IH]; [done|]. by rewrite append_cons, IH. Qed.

Lemma append_length (s t : string) :
  String.length (s +:+ t) = (String.length s + String.length t)%nat.
Proof. induction s as [|c s IH]; [done|]. rewrite append_cons. simpl. by rewrite IH. Qed.

Lemma already_listed_app key qs e :
  already_listed key (qs ++ [e])
  = already_listed key qs || bool_decide (slice_to 100 (qq_question e) = key).
Proof.
  unfold already_listed. rewrite existsb_app. simpl. by rewrite orb_false_r.
Qed.

Lemma add_question_appends title attempt qs q :
  nonempty (clean_html (question_text q)) = true ->
  already_listed (slice_to 100 (clean_html (question_text q))) qs = false ->
  add_question title attempt qs q
  = qs ++ [ {| qq_quiz := title;
               qq_question := clean_html (question_text q) +:+ answers_info q;
               qq_type := default "" (question_type q);
               qq_attempt := attempt |} ].
Proof. intros Hne Hl. unfold add_question. by rewrite Hne, Hl. Qed.

Lemma add_question_skips title attempt qs q :
  already_listed (slice_to 100 (clean_html (question_text q))) qs = true ->
  add_question title attempt qs q = qs.
Proof.
  intros Hl. unfold add_question. rewrite Hl. by destruct (nonempty _).
Qed.

(** X12.  A question without answer options, or with a text of at least 100
    characters, is listed at most once: offering it again right after it was
    offered changes nothing. *)
Theorem question_listed_once (quiz_title : string) (attempt_num : Z)
    (all_quiz_questions : list QuizQuestion) (q : Question) :
  answers_info q = ""
  \/ (100 <= String.length (clean_html (question_text q)))%nat ->
  add_question quiz_title attempt_num
    (add_question quiz_title attempt_num all_quiz_questions q) q
  = add_question quiz_title attempt_num all_quiz_questions q.
Proof.
  intros Hq.
  destruct (nonempty (clean_html (question_text q))) eqn:Hne;
    [|unfold add_question; by rewrite Hne].
  destruct (already_listed (slice_to 100 (clean_html (question_text q)))
              all_quiz_questions) eqn:Hl.
  { by rewrite !(add_question_skips _ _ all_quiz_questions q Hl). }
  rewrite (add_question_appends _ _ all_quiz_questions) by done.
  apply add_question_skips. rewrite already_listed_app. cbn [qq_question].
  assert (slice_to 100 (clean_html (question_text q) +:+ answers_info q)
          = slice_to 100 (clean_html (question_text q))) as ->.
  { destruct Hq as [->|Hlen]; [by rewrite append_empty_r|by apply slice_to_append]. }
  rewrite bool_decide_eq_true_2 by done. apply orb_true_r.
Qed.

Lemma question_listed_once_witness :
  add_question "Quiz 1" 1
    (add_question "Quiz 1" 1 []
       {| question_text := Some "<p>Define   elasticity.</p>";
          question_type := Some "essay_question"; question_answers := [] |})
    {| question_text := Some "<p>Define   elasticity.</p>";
       question_type := Some "essay_question"; question_answers := [] |}
  = add_question "Quiz 1" 1 []
      {| question_text := Some "<p>Define   elasticity.</p>";
         question_type := Some "essay_question"; question_answers := [] |}.
Proof.
  apply (question_listed_once "Quiz 1" 1 []
           {| question_text := Some "<p>Define   elasticity.</p>";
              question_type := Some "essay_question"; question_answers := [] |}).
  left. reflexivity.
Defined.

(** X13.  A question of fewer than 100 characters that carries answer
    options is not recognised when it is offered again: the entry stores the
    text followed by the options, the comparison uses the text alone, and
    so the question is listed a second time. *)
Theorem short_question_with_options_listed_again (quiz_title : string)
    (attempt_num : Z) (all_quiz_questions : list QuizQuestion) (q : Question) :
  (String.length (clean_html (question_text q)) < 100)%nat ->
  answers_info q <> "" ->
  add_question quiz_title attempt_num all_quiz_questions q <> all_quiz_questions ->
  add_question quiz_title attempt_num
    (add_question quiz_title attempt_num all_quiz_questions q) q
  = add_question quiz_title attempt_num all_quiz_questions q
    ++ [ {| qq_quiz := quiz_title;
            qq_question := clean_html (question_text q) +:+ answers_info q;
            qq_type := default "" (question_type q);
            qq_attempt := attempt_num |} ].
Proof.
  intros Hlen Hinfo Hadded.
  destruct (nonempty (clean_html (question_text q))) eqn:Hne;
    [|destruct Hadded; unfold add_question; by rewrite Hne].
  destruct (already_listed (slice_to 100 (clean_html (question_text q)))
              all_quiz_questions) eqn:Hl.
  { destruct Hadded. by apply add_question_skips. }
  rewrite (add_question_appends _ _ all_quiz_questions) by done.
  apply add_question_appends; [done|].
  rewrite already_listed_app, Hl. cbn [qq_question orb].
  apply bool_decide_eq_false_2.
  intros Heq. apply (f_equal String.length) in Heq.
  rewrite !slice_to_length, append_length in Heq.
  destruct (answers_info q) as [|c info]; [done|].
  change (String.length (String c info)) with (S (String.length info)) in Heq.
  lia.
Qed.

Lemma short_question_with_options_listed_again_witness :
  add_question "Quiz 1" 1
    (add_question "Quiz 1" 1 []
       {| question_text := Some "2 + 2 = ?";
          question_type := Some "multiple_choice_question";
          question_answers := [Some "3"; Some "4"] |})
    {| question_text := Some "2 + 2 = ?";
       question_type := Some "multiple_choice_question";
       question_answers := [Some "3"; Some "4"] |}
  = add_question "Quiz 1" 1 []
      {| question_text := Some "2 + 2 = ?";
         question_type := Some "multiple_choice_question";
         question_answers := [Some "3"; Some "4"] |}
    ++ [ {| qq_quiz := "Quiz 1";
            qq_question :=
              clean_html (Some "2 + 2 = ?")
              +:+ answers_info
                    {| question_text := Some "2 + 2 = ?";
                       question_type := Some "multiple_choice_question";
                       question_answers := [Some "3"; Some "4"] |};
            qq_type := default "" (Some "multiple_choice_question");
            qq_attempt := 1 |} ].
Proof.
  apply (short_question_with_options_listed_again "Quiz 1" 1 []
           {| question_text := Some "2 + 2 = ?";
              question_type := Some "multiple_choice_question";
              question_answers := [Some "3"; Some "4"] |}).
  - vm_compute. lia.
  - vm_compute. discriminate.
  - vm_compute. discriminate.
Defined.

(** *** The quiz collector *)

Section WithLibrary.
Context {L : Library}.

Lemma submissions_loop_with_quizzes site quizzes title subs all :
  submissions_loop (with_quizzes site quizzes) title subs all
  = submissions_loop site title subs all.
Proof.
  revert all. induction subs as [|sub subs IH]; intros all; simpl; [done|].
  destruct (submission_id sub) as [id|]; [|apply IH].
  destruct (id =? 0); [apply IH|].
  destruct (questions_response site id) as [|code questions]; [done|].
  destruct (code =? 200); [|apply IH].
  destruct (bool_decide _); [done|apply IH].
Qed.

Lemma quiz_step_with_quizzes site quizzes exam_date all quiz :
  quiz_step (with_quizzes site quizzes) exam_date all quiz
  = quiz_step site exam_date all quiz.
Proof.
  unfold quiz_step. destruct (quiz_skipped exam_date quiz); [done|].
  change (submissions_response (with_quizzes site quizzes))
    with (submissions_response site).
  destruct (submissions_response site (quiz_id quiz)) as [|code subs]; [done|].
  destruct (code =? 200); [|done]. apply submissions_loop_with_quizzes.
Qed.

Lemma quizzes_loop_with_quizzes site quizzes exam_date l all :
  foldl (quiz_step (with_quizzes site quizzes) exam_date) all l
  = foldl (quiz_step site exam_date) all l.
Proof.
  revert all. induction l as [|quiz l IH]; intros all; simpl; [done|].
  by rewrite IH, quiz_step_with_quizzes.
Qed.

(** X14.  A quiz whose due date (or, without one, lock date) falls, in
    Pacific time, on or after the exam date contributes nothing: the
    collector returns what it returns for the quiz list without it. *)
Theorem quiz_after_exam_skipped (site : QuizSite) (exam_date : datetime)
    (l1 : list Quiz) (quiz : Quiz) (l2 : list Quiz) (s : string) (l : datetime) :
  quizzes_response site = Reply 200 (l1 ++ quiz :: l2) ->
  or_else (quiz_due_at quiz) (quiz_lock_at quiz) = Some s ->
  nonempty s = true -> to_pacific s = Some l -> exam_date <= l ->
  get_quiz_questions site exam_date
  = get_quiz_questions (with_quizzes site (l1 ++ l2)) exam_date.
Proof.
  intros Hr Hd Hs Hl Hle. unfold get_quiz_questions. rewrite Hr. simpl.
  rewrite !foldl_app. simpl.
  assert (forall all, quiz_step site exam_date all quiz = all) as ->.
  { intros all. unfold quiz_step, quiz_skipped. rewrite Hd, Hs, Hl.
    apply Z.leb_le in Hle. by rewrite Hle. }
  by rewrite !quizzes_loop_with_quizzes.
Qed.

(** X15.  A quiz whose date cannot be read is not skipped: it is treated
    exactly like a quiz without dates.  (For a module, an unreadable
    [unlock_at] excludes the module.) *)
Theorem quiz_with_unreadable_date_is_kept (site : QuizSite) (exam_date : datetime)
    (l1 : list Quiz) (quiz : Quiz) (l2 : list Quiz) (s : string) :
  quizzes_response site = Reply 200 (l1 ++ quiz :: l2) ->
  or_else (quiz_due_at quiz) (quiz_lock_at quiz) = Some s ->
  to_pacific s = None ->
  get_quiz_questions site exam_date
  = get_quiz_questions (with_quizzes site (l1 ++ undated quiz :: l2)) exam_date.
Proof.
  intros Hr Hd Hl. unfold get_quiz_questions. rewrite Hr. simpl.
  rewrite !foldl_app. simpl.
  assert (forall all, quiz_step site exam_date all quiz
                      = quiz_step site exam_date all (undated quiz)) as ->.
  { intros all. unfold quiz_step, quiz_skipped. rewrite Hd, Hl. simpl.
    by destruct (nonempty s). }
  by rewrite !quizzes_loop_with_quizzes, quiz_step_with_quizzes.
Qed.

Lemma add_question_entries title attempt qs q e :
  e ∈ add_question title attempt qs q ->
  e ∈ qs \/ (qq_quiz e = title /\ nonempty (qq_question e) = true).
Proof.
  unfold add_question.
  destruct (nonempty (clean_html (question_text q))) eqn:Hne; [|tauto].
  destruct (negb _); [|tauto].
  intros [?| ->%list_elem_of_singleton]%elem_of_app; [tauto|]. right. simpl.
  split; [done|]. by destruct (clean_html (question_text q)).
Qed.

Lemma add_questions_entries title attempt questions qs e :
  e ∈ foldl (add_question title attempt) qs questions ->
  e ∈ qs \/ (qq_quiz e = title /\ nonempty (qq_question e) = true).
Proof.
  revert qs. induction questions as [|q questions IH]; intros qs; simpl; [tauto|].
  intros [He|?]%IH; [|tauto]. by apply add_question_entries in He.
Qed.

Lemma submissions_loop_entries site title subs qs e :
  e ∈ submissions_loop site title subs qs ->
  e ∈ qs \/ (qq_quiz e = title /\ nonempty (qq_question e) = true).
Proof.
  revert qs. induction subs as [|sub subs IH]; intros qs; simpl; [tauto|].
  destruct (submission_id sub) as [id|]; [|apply IH].
  destruct (id =? 0); [apply IH|].
  destruct (questions_response site id) as [|code questions]; [tauto|].
  destruct (code =? 200); [|apply IH].
  destruct (bool_decide (questions <> [])).
  - apply add_questions_entries.
  - intros [He|?]%IH; [|tauto]. by apply add_questions_entries in He.
Qed.

Lemma quizzes_loop_entries site exam_date quizzes qs e :
  e ∈ foldl (quiz_step site exam_date) qs quizzes ->
  e ∈ qs
  \/ (nonempty (qq_question e) = true
      /\ exists quiz, quiz ∈ quizzes
           /\ quiz_skipped exam_date quiz = false
           /\ qq_quiz e = default "Quiz" (quiz_title quiz)).
Proof.
  revert qs. induction quizzes as [|quiz quizzes IH]; intros qs; simpl; [tauto|].
  intros [He|(Hne & quiz' & Hin & Hsk & Ht)]%IH.
  - unfold quiz_step in He. destruct (quiz_skipped exam_date quiz) eqn:Hsk; [tauto|].
    destruct (submissions_response site (quiz_id quiz)) as [|code subs]; [tauto|].
    destruct (code =? 200); [|tauto].
    apply submissions_loop_entries in He as [?|[Ht Hne]]; [tauto|].
    right. split; [done|]. exists quiz. split; [left|done].
  - right. split; [done|]. exists quiz'. split; [by right|done].
Qed.

(** X16.  The quiz collector never lists an empty question, and every
    entry is filed under the title of a quiz of the list that the date test
    did not skip. *)
Theorem quiz_entries_come_from_kept_quizzes (site : QuizSite)
    (exam_date : datetime) (e : QuizQuestion) :
  e ∈ get_quiz_questions site exam_date ->
  nonempty (qq_question e) = true
  /\ exists quizzes quiz,
       quizzes_response site = Reply 200 quizzes
       /\ quiz ∈ quizzes
       /\ quiz_skipped exam_date quiz = false
       /\ qq_quiz e = default "Quiz" (quiz_title quiz).
Proof.
  unfold get_quiz_questions.
  destruct (quizzes_response site) as [|code quizzes]; [by intros ?%elem_of_nil|].
  destruct (code =? 200) eqn:Hc; [|by intros ?%elem_of_nil].
  apply Z.eqb_eq in Hc as ->.
  intros [He|(Hne & quiz & Hin & Hsk & Ht)]%quizzes_loop_entries;
    [by apply elem_of_nil in He|].
  split; [done|]. by exists quizzes, quiz.
Qed.

End WithLibrary.

End CuratorMore.

(** ** The planner's messages *)

Module MessagesFacts.
Import PyStr Datetime Planner StudyGuide Policy Examples Messages Terms
       PyStrFacts TextFacts.

(** *** [split] *)

Lemma startswith_cons (a : ascii) (k : string) (b : ascii) (s : string) :
  startswith (String a k) (String b s) = bool_decide (a = b) && startswith k s.
Proof. reflexivity. Qed.

Lemma split_from_cons (sep : string) (c : ascii) (s : string) :
  split_from sep O (String c s)
  = if startswith sep (String c s)
    then "" :: split_from sep (String.length sep - 1) s
    else match split_from sep O s with
         | piece :: pieces => String c piece :: pieces
         | [] => [String c ""]
         end.
Proof. reflexivity. Qed.

Lemma split_from_nonempty (sep : string) (skip : nat) (s : string) :
  exists piece pieces, split_from sep skip s = piece :: pieces.
Proof.
  revert skip. induction s as [|c s IH]; intros skip; [by exists "", []|].
  destruct skip as [|k]; [|apply IH].
  rewrite split_from_cons. destruct (startswith sep _); [eauto|].
  destruct (IH O) as (p & ps & ->). eauto.
Qed.

(** Without an occurrence of the separator there is one piece. *)
Lemma split_none (sep s : string) :
  contains sep s = false -> split sep s = [s].
Proof.
  unfold split. induction s as [|c s IH]; [done|].
  rewrite contains_cons, split_from_cons.
  intros [-> Hs]%orb_false_iff. by rewrite IH.
Qed.

(** With an occurrence there are at least two. *)
Lemma split_some (sep s : string) :
  sep <> "" -> contains sep s = true ->
  exists p q pieces, split sep s = p :: q :: pieces.
Proof.
  intros Hsep. unfold split. induction s as [|c s IH].
  - simpl. rewrite orb_false_r. by destruct sep.
  - rewrite contains_cons, split_from_cons.
    destruct (startswith sep (String c s)); simpl.
    + intros _. destruct (split_from_nonempty sep (String.length sep - 1) s)
        as (q & pieces & ->). eauto.
    + intros Hs. destruct (IH Hs) as (p & q & pieces & ->). eauto.
Qed.

Lemma split_from_skip (sep u rest : string) :
  split_from sep (String.length u) (u +:+ rest) = split_from sep O rest.
Proof. induction u as [|c u IH]; [done|]. rewrite append_cons. apply IH. Qed.

(** The first piece ends where the separator first occurs. *)
Lemma split_at (sep pre rest : string) :
  sep <> "" ->
  (forall u v, pre = u +:+ v -> v <> "" ->
     startswith sep (v +:+ sep +:+ rest) = false) ->
  split sep (pre +:+ sep +:+ rest) = pre :: split sep rest.
Proof.
  intros Hsep. unfold split. induction pre as [|c pre IH]; intros Hfirst.
  - rewrite append_nil. destruct sep as [|c0 sep']; [done|].
    rewrite append_cons, split_from_cons, <- append_cons.
    assert (startswith (String c0 sep') (String c0 sep' +:+ rest) = true) as ->
      by (apply startswith_spec; eauto).
    replace (String.length (String c0 sep') - 1)%nat with (String.length sep')
      by (simpl; lia).
    by rewrite split_from_skip.
  - rewrite append_cons, split_from_cons, <- append_cons.
    rewrite (Hfirst "" (String c pre)) by done.
    rewrite IH; [done|]. intros u v -> Hv. apply (Hfirst (String c u)); [|done].
    by rewrite append_cons.
Qed.

Lemma contains_suffix (sep u v : string) :
  contains sep (u +:+ v) = false -> contains sep v = false.
Proof.
  induction u as [|c u IH]; [done|]. rewrite append_cons, contains_cons.
  intros [_ H]%orb_false_iff. by apply IH.
Qed.

Lemma contains_startswith (sep s : string) :
  contains sep s = false -> startswith sep s = false.
Proof. destruct s; simpl; by intros [? _]%orb_false_iff. Qed.

Lemma startswith_append_long (sep v w : string) :
  (String.length sep <= String.length v)%nat ->
  startswith sep (v +:+ w) = startswith sep v.
Proof.
  revert v. induction sep as [|a sep IH]; intros v Hlen; [done|].
  destruct v as [|b v]; simpl in Hlen; [lia|].
  rewrite append_cons, !startswith_cons, IH; [done|lia].
Qed.

(** A separator that cannot overlap with itself occurs first where it is
    put, after a text that does not contain it. *)
Lemma first_occurrence (sep pre rest : string) :
  (forall v w, v <> "" -> (String.length v < String.length sep)%nat ->
     startswith sep (v +:+ sep +:+ w) = false) ->
  contains sep pre = false ->
  forall u v, pre = u +:+ v -> v <> "" ->
    startswith sep (v +:+ sep +:+ rest) = false.
Proof.
  intros Hself Hpre u v -> Hv.
  destruct (decide (String.length v < String.length sep)%nat) as [Hlt|Hge].
  - by apply Hself.
  - rewrite startswith_append_long by lia.
    by apply contains_startswith, (contains_suffix sep u).
Qed.

Ltac compare_heads :=
  rewrite startswith_cons;
  lazymatch goal with
  | |- bool_decide (?a = ?b) && _ = false =>
      let Heq := fresh "Heq" in
      let Hne := fresh "Hne" in
      destruct (decide (a = b)) as [Heq|Hne];
      [ try discriminate Heq; subst;
        rewrite bool_decide_eq_true_2 by done; rewrite andb_true_l
      | by rewrite bool_decide_eq_false_2 ]
  end.

Ltac no_self_overlap :=
  intros v w Hv Hlen;
  repeat (destruct v as [|? v]; simpl in Hlen;
          [ first [ done
                  | rewrite ?append_cons, ?append_nil; repeat compare_heads ]
          | try lia ]).

Lemma action_plan_marker_no_overlap (v w : string) :
  v <> "" -> (String.length v < String.length "ACTION_PLAN:")%nat ->
  startswith "ACTION_PLAN:" (v +:+ "ACTION_PLAN:" +:+ w) = false.
Proof. revert v w. no_self_overlap. Qed.

Lemma tips_marker_no_overlap (v w : string) :
  v <> "" -> (String.length v < String.length "TIPS:")%nat ->
  startswith "TIPS:" (v +:+ "TIPS:" +:+ w) = false.
Proof. revert v w. no_self_overlap. Qed.

(** *** [strip] *)

Lemma lstrip_starts_clean (s : string) : starts_clean (lstrip s).
Proof.
  induction s as [|c s IH]; simpl; [done|].
  destruct (is_space c) eqn:Hc; [done|]. simpl. by rewrite Hc.
Qed.

Lemma rstrip_ends_clean (s : string) : ends_clean (rstrip s).
Proof.
  induction s as [|c s IH]; simpl; [done|].
  destruct (is_space c) eqn:Hc; simpl.
  - destruct (rstrip s) as [|d t]; simpl; [done|]. apply IH.
  - destruct (rstrip s) as [|d t]; simpl; [done|]. apply IH.
Qed.

Lemma strip_clean (s : string) :
  starts_clean (strip s) /\ ends_clean (strip s).
Proof.
  unfold strip. split.
  - apply rstrip_starts_clean, lstrip_starts_clean.
  - apply rstrip_ends_clean.
Qed.

(** *** The parsing of the completion *)

(** X17.  The parsing of a completion never raises, whatever the text: it
    always yields a plan and tips, both without white space at either end;
    and a completion without the marker "ACTION_PLAN:" yields an empty plan
    and empty tips, even when it contains "TIPS:". *)
Theorem parse_ai_response_total (ai_response : string) :
  exists action_plan tips,
    parse_ai_response ai_response = Some (action_plan, tips)
    /\ starts_clean action_plan /\ ends_clean action_plan
    /\ starts_clean tips /\ ends_clean tips
    /\ (contains "ACTION_PLAN:" ai_response = false ->
        action_plan = "" /\ tips = "").
Proof.
  unfold parse_ai_response.
  destruct (contains "ACTION_PLAN:" ai_response) eqn:Hplan;
    [|by exists "", ""].
  destruct (split_some "ACTION_PLAN:" ai_response) as (p & section & rest & ->);
    [done|done|]. simpl.
  destruct (contains "TIPS:" section) eqn:Htips.
  - destruct (split_some "TIPS:" section) as (a & t & rest' & ->); [done|done|].
    simpl. exists (strip a), (strip t).
    destruct (strip_clean a), (strip_clean t). by repeat split.
  - exists (strip section), "". destruct (strip_clean section). by repeat split.
Qed.

(** X18.  Round trip: a completion that puts the plan after "ACTION_PLAN:"
    and the tips after "TIPS:", with neither marker occurring anywhere
    else, is parsed into exactly that plan and those tips, stripped of
    surrounding white space; what precedes "ACTION_PLAN:" is dropped. *)
Theorem parse_ai_response_round_trip (preamble plan tips : string) :
  contains "ACTION_PLAN:" preamble = false ->
  contains "ACTION_PLAN:" (plan +:+ "TIPS:" +:+ tips) = false ->
  contains "TIPS:" plan = false ->
  contains "TIPS:" tips = false ->
  parse_ai_response (preamble +:+ "ACTION_PLAN:" +:+ plan +:+ "TIPS:" +:+ tips)
  = Some (strip plan, strip tips).
Proof.
  intros Hpre Hrest Hplan Htips. unfold parse_ai_response.
  assert (contains "ACTION_PLAN:"
            (preamble +:+ "ACTION_PLAN:" +:+ plan +:+ "TIPS:" +:+ tips) = true) as ->
    by (apply contains_spec; eexists _, _; reflexivity).
  rewrite split_at, (split_none _ _ Hrest); [|done|].
  2:{ apply first_occurrence; [apply action_plan_marker_no_overlap|done]. }
  simpl.
  assert (contains "TIPS:" (plan +:+ "TIPS:" +:+ tips) = true) as ->
    by (apply contains_spec; eexists _, _; reflexivity).
  rewrite split_at, (split_none _ _ Htips); [done|done|].
  apply first_occurrence; [apply tips_marker_no_overlap|done].
Qed.

Lemma parse_ai_response_round_trip_witness :
  parse_ai_response ("Sure. " +:+ "ACTION_PLAN:" +:+ " 1. Read  " +:+ "TIPS:" +:+ " Start early ")
  = Some (strip " 1. Read  ", strip " Start early ").
Proof.
  apply (parse_ai_response_round_trip "Sure. " " 1. Read  " " Start early ");
    reflexivity.
Defined.

End MessagesFacts.

(** ** The listing of [main] *)

Module ListingFacts.
Import PyStr Datetime Planner StudyGuide Policy Examples Messages Terms Samples
       PyStrFacts ClassifierFacts ClassifierMore TextFacts MessagesFacts.

(** X19.  For every day of a month the date header gets the correct English
    ordinal suffix (1st, 2nd, 3rd, 4th, 11th, 12th, 13th, 21st, 22nd, 23rd,
    31st), and the list lookup behind it never leaves its bounds. *)
Theorem day_suffix_is_ordinal (day : Z) :
  1 <= day <= 31 -> day_suffix day = Some (ordinal_suffix day).
Proof.
  intros Hday. rewrite <- (Z2Nat.id day) in * by lia.
  generalize dependent (Z.to_nat day). intros n Hn.
  do 32 (destruct n as [|n]; [first [lia | reflexivity]|]). lia.
Qed.

Lemma day_suffix_is_ordinal_witness :
  day_suffix 22 = Some (ordinal_suffix 22).
Proof. apply (day_suffix_is_ordinal 22). lia. Defined.

(** *** The course code *)

Lemma split_char_head (c : ascii) (s : string) :
  exists piece pieces,
    split (String c "") s = piece :: pieces /\ free_of c piece.
Proof.
  unfold split. induction s as [|d s IH]; [by exists "", []|].
  rewrite split_from_cons, startswith_cons. simpl startswith. rewrite andb_true_r.
  destruct (bool_decide (c = d)) eqn:Hd.
  - eexists _, _. by split.
  - apply bool_decide_eq_false in Hd.
    destruct IH as (p & ps & -> & Hp). eexists _, _. split; [done|].
    split; [congruence|done].
Qed.

Lemma remove_blanks_free (s : string) : free_of " "%char (remove_blanks s).
Proof.
  induction s as [|c s IH]; simpl; [done|].
  destruct (bool_decide (c = " "%char)) eqn:Hc; [done|].
  apply bool_decide_eq_false in Hc. by split.
Qed.

Lemma remove_blanks_keeps_free (c : ascii) (s : string) :
  free_of c s -> free_of c (remove_blanks s).
Proof.
  induction s as [|d s IH]; simpl; [done|]. intros [Hd Hs].
  destruct (bool_decide (d = " "%char)); simpl; auto.
Qed.

(** X20.  The course code of a listing line is always defined, contains no
    blank, and contains nothing from the first opening parenthesis of the
    course name on. *)
Theorem course_code_is_compact (course : string) :
  exists code,
    course_code course = Some code
    /\ free_of " "%char code
    /\ free_of "("%char code.
Proof.
  unfold course_code. destruct (contains "(" course) eqn:Hc.
  - destruct (split_char_head "(" course) as (p & ps & -> & Hp). simpl.
    eexists. split; [done|]. split; [apply remove_blanks_free|].
    by apply remove_blanks_keeps_free, rstrip_free, lstrip_free.
  - simpl. eexists. split; [done|]. split; [apply remove_blanks_free|].
    by apply remove_blanks_keeps_free, contains_char_false.
Qed.

(** *** Grouping by date *)

Lemma group_step_lookup (m : gmap Z (list Assignment)) (a : Assignment) (d : Z) :
  default [] (match due_datetime_parsed a with
              | Some due_datetime =>
                  <[date due_datetime :=
                      default [] (m !! date due_datetime) ++ [a]]> m
              | None => m
              end !! d)
  = default [] (m !! d) ++ filter (fun a => date_key a = Some d) [a].
Proof.
  rewrite filter_cons, filter_nil.
  destruct (due_datetime_parsed a) as [dt|]; simpl.
  - destruct (decide (date dt = d)) as [->|Hne].
    + rewrite lookup_insert_eq, decide_True by done. done.
    + rewrite lookup_insert_ne by done.
      rewrite decide_False by congruence. by rewrite app_nil_r.
  - by rewrite app_nil_r.
Qed.

Lemma group_loop_lookup (l : list Assignment) (m : gmap Z (list Assignment)) (d : Z) :
  default []
    (foldl (fun by_date assignment =>
              match due_datetime_parsed assignment with
              | Some due_datetime =>
                  <[date due_datetime :=
                      default [] (by_date !! date due_datetime) ++ [assignment]]> by_date
              | None => by_date
              end) m l !! d)
  = default [] (m !! d) ++ filter (fun a => date_key a = Some d) l.
Proof.
  revert m. induction l as [|a l IH]; intros m; simpl.
  - by rewrite app_nil_r.
  - rewrite IH, group_step_lookup, <- app_assoc. f_equal.
    rewrite !filter_cons, filter_nil. by destruct (decide _).
Qed.

Lemma group_by_date_lookup (l : list Assignment) (d : Z) :
  default [] (group_by_date l !! d) = filter (fun a => date_key a = Some d) l.
Proof. unfold group_by_date. by rewrite group_loop_lookup, lookup_empty. Qed.

Lemma group_loop_dom (l : list Assignment) (m : gmap Z (list Assignment)) (d : Z) :
  (exists a, a ∈ l /\ date_key a = Some d) ->
  d ∈ dom (foldl (fun by_date assignment =>
              match due_datetime_parsed assignment with
              | Some due_datetime =>
                  <[date due_datetime :=
                      default [] (by_date !! date due_datetime) ++ [assignment]]> by_date
              | None => by_date
              end) m l).
Proof.
  intros (a & Ha & Hd).
  pose proof (group_loop_lookup l m d) as Hl.
  apply elem_of_dom. destruct (foldl _ m l !! d) as [g|] eqn:Hg; [done|].
  simpl in Hl. symmetry in Hl. apply app_eq_nil in Hl as [_ Hl].
  assert (a ∈ filter (fun a => date_key a = Some d) l) as Hin
    by (by apply list_elem_of_filter).
  rewrite Hl in Hin. by apply elem_of_nil in Hin.
Qed.

Lemma filter_none {A : Type} (P : A -> Prop) `{forall x, Decision (P x)}
    (l : list A) :
  (forall x, x ∈ l -> ~ P x) -> filter P l = [].
Proof.
  induction l as [|x l IH]; intros Hl; [done|].
  rewrite filter_cons, decide_False by (apply Hl; left).
  apply IH. intros y Hy. apply Hl. by right.
Qed.

(** Reading a list that ascends by date group by group, in ascending order
    of the dates, gives the list back. *)
Lemma concat_groups (ds : list Z) (l : list Assignment) :
  StronglySorted Z.le ds -> NoDup ds ->
  Sorted (fun a b => exists da db, date_key a = Some da /\ date_key b = Some db
                                   /\ da <= db) l ->
  (forall a, a ∈ l -> exists d, d ∈ ds /\ date_key a = Some d) ->
  concat ((fun d => filter (fun a => date_key a = Some d) l) <$> ds) = l.
Proof.
  intros Hds. revert l. induction Hds as [|d ds Hds IH Hall]; intros l Hnd Hl Hin.
  - destruct l as [|a l]; [done|]. destruct (Hin a) as (d & Hd & _); [left|].
    by apply elem_of_nil in Hd.
  - apply NoDup_cons in Hnd as [Hd Hnd].
    assert (forall d', d' ∈ ds -> d < d') as Hlt.
    { intros d' Hd'. pose proof (proj1 (Forall_forall _ _) Hall d' Hd').
      assert (d <> d') by (intros ->; done). lia. }
    induction l as [|a l IHl].
    + rewrite fmap_cons, filter_nil. simpl concat. apply (IH []); [done|constructor|].
      intros a Ha. by apply elem_of_nil in Ha.
    + destruct (Hin a) as (da & Hda & Ha); [left|].
      apply Sorted_inv in Hl as [Hl Hhd].
      assert (forall b, b ∈ l -> exists d0, d0 ∈ d :: ds /\ date_key b = Some d0)
        as Hin' by (intros b Hb; apply Hin; by right).
      apply elem_of_cons in Hda as [->|Hda].
      * rewrite fmap_cons. simpl concat.
        rewrite filter_cons, decide_True by done. simpl. f_equal.
        rewrite <- (IHl Hl Hin') at 2. rewrite fmap_cons. simpl concat. f_equal.
        f_equal. apply list_fmap_ext. intros n d' Hd'.
        apply list_elem_of_lookup_2, Hlt in Hd'.
        rewrite filter_cons, decide_False; [done|]. rewrite Ha. intros [= ?]. lia.
      * assert (forall b, b ∈ a :: l -> exists db, date_key b = Some db /\ da <= db)
          as Hge.
        { pose proof (Sorted_cons Hl Hhd) as Hall'.
          apply Sorted_extends in Hall'.
          - intros b [->|Hb]%elem_of_cons; [exists da; split; [done|lia]|].
            pose proof (proj1 (Forall_forall _ _) Hall' b Hb)
              as (da' & db & Ha' & Hb' & Hle).
            exists db. split; [done|]. rewrite Ha in Ha'. injection Ha' as <-. done.
          - intros x y z (dx & dy & Hx & Hy & Hxy) (dy' & dz & Hy' & Hz & Hyz).
            exists dx, dz. split; [done|]. split; [done|].
            rewrite Hy in Hy'. injection Hy' as <-. lia. }
        assert (filter (fun b => date_key b = Some d) (a :: l) = []) as Hnone.
        { apply filter_none. intros b Hb Hbd.
          destruct (Hge b Hb) as (db & Hdb & Hle). rewrite Hbd in Hdb.
          injection Hdb as <-. specialize (Hlt da Hda). lia. }
        rewrite fmap_cons. simpl concat. rewrite Hnone. simpl.
        apply IH; [done|by constructor|].
        intros b Hb. destruct (Hin b Hb) as (d0 & [->|Hd0]%elem_of_cons & Hb0);
          [|eauto].
        destruct (Hge b Hb) as (db & Hdb & Hle). rewrite Hb0 in Hdb.
        injection Hdb as <-. specialize (Hlt da Hda). lia.
Qed.

Lemma sorted_le_strongly (l : list Z) :
  Sorted (fun x y => id x <= id y) l -> StronglySorted Z.le l.
Proof.
  induction 1 as [|x l Hl IH Hhd]; constructor; [done|].
  apply (Sorted_extends (R := fun x y => id x <= id y)); [|by constructor].
  intros a b c. unfold id. lia.
Qed.

Lemma strongly_sorted_strict (l : list Z) :
  StronglySorted Z.le l -> NoDup l -> Sorted Z.lt l.
Proof.
  induction 1 as [|x l Hl IH Hall]; intros Hnd; constructor.
  - apply IH. by apply NoDup_cons in Hnd as [_ ?].
  - apply NoDup_cons in Hnd as [Hx _]. destruct l as [|y l]; constructor.
    apply Forall_cons in Hall as [Hxy _].
    assert (x <> y) by (intros ->; apply Hx; left). lia.
Qed.

Lemma sorted_dates_spec (m : gmap Z (list Assignment)) :
  StronglySorted Z.le (sorted_dates m)
  /\ NoDup (sorted_dates m)
  /\ forall d, d ∈ sorted_dates m <-> d ∈ dom m.
Proof.
  unfold sorted_dates. split; [|split].
  - apply sorted_le_strongly, sort_by_sorted.
  - rewrite sort_by_perm. apply NoDup_elements.
  - intros d. by rewrite elem_of_sort_by, elem_of_elements.
Qed.

Lemma sorted_with {A : Type} (R R' : A -> A -> Prop) (P : A -> Prop) (l : list A) :
  (forall x y, P x -> P y -> R x y -> R' x y) ->
  Forall P l -> Sorted R l -> Sorted R' l.
Proof.
  intros Himpl HP. induction 1 as [|x l Hl IH Hhd]; constructor.
  - apply IH. by apply Forall_cons in HP as [_ ?].
  - apply Forall_cons in HP as [Hx HP]. destruct Hhd as [|y l Hxy]; constructor.
    apply Forall_cons in HP as [Hy _]. by apply Himpl.
Qed.

Section WithLibrary.
Context {L : Library}.

(** X21.  The listing that [main] builds from the classifier's result files
    every record under the day of its local deadline, lists the days in
    strictly ascending order, and, read from top to bottom, shows the
    records in exactly the order of the classifier's result: none is lost,
    repeated or moved. *)
Theorem date_groups_keep_the_order now assignments due_soon :
  filter_due_next_3_days now assignments = Some due_soon ->
  concat (snd <$> date_groups due_soon) = due_soon
  /\ Sorted Z.lt (fst <$> date_groups due_soon)
  /\ forall d group a, (d, group) ∈ date_groups due_soon -> a ∈ group ->
       due_date_parsed a = Some d.
Proof.
  intros Hf.
  assert (Forall (fun x => exists a s l,
                    x = enrich a l /\ due_at a = Some s) due_soon) as Hall.
  { apply Forall_forall. intros x Hx. rewrite (due_soon_unfold _ _ _ Hf) in Hx.
    apply elem_of_due_soon in Hx as (a & _ & Hx).
    apply classify_Some in Hx as (s & l & Hd & _ & _ & _ & ->). eauto. }
  destruct (sorted_dates_spec (group_by_date due_soon)) as (Hss & Hnd & Hdom).
  unfold date_groups. rewrite <- !list_fmap_compose. split; [|split].
  - erewrite list_fmap_ext;
      [|intros n d _; simpl; apply group_by_date_lookup].
    apply concat_groups; [done|done| |].
    + apply (sorted_with (fun x y => sort_key x <= sort_key y) _
               (fun x => exists a s l, x = enrich a l /\ due_at a = Some s));
        [|done|by apply (due_soon_sorted now assignments)].
      intros x y (a & s & l & -> & _) (b & t & k & -> & _) Hxy. simpl in *.
      exists (date l), (date k). split; [done|]. split; [done|].
      unfold date. apply Z.div_le_mono; [done|]. exact Hxy.
    + intros x Hx. pose proof (proj1 (Forall_forall _ _) Hall x Hx)
        as (a & s & l & -> & _).
      exists (date l). split; [|done]. apply Hdom.
      apply group_loop_dom. exists (enrich a l). by split.
  - erewrite (list_fmap_ext _ id); [|done].
    rewrite list_fmap_id. by apply strongly_sorted_strict.
  - intros d group x Hin Hx.
    apply list_elem_of_fmap in Hin as (d' & [= -> ->] & _).
    rewrite group_by_date_lookup in Hx.
    apply list_elem_of_filter in Hx as [Hd Hx].
    pose proof (proj1 (Forall_forall _ _) Hall x Hx) as (a & s & l & -> & _).
    simpl in *. done.
Qed.

End WithLibrary.

Lemma date_groups_keep_the_order_witness :
  concat (snd <$> date_groups week_due_soon) = week_due_soon
  /\ Sorted Z.lt (fst <$> date_groups week_due_soon)
  /\ forall d group a,
       (d, group) ∈ date_groups week_due_soon ->
       a ∈ group -> due_date_parsed a = Some d.
Proof.
  apply (date_groups_keep_the_order (L := cpython) new_year week_work).
  vm_compute. reflexivity.
Defined.

(** The listing of the week: two days, the second with two records in the
    order of their deadlines. *)
Example week_listing :
  date_groups week_due_soon
  = [ (days_from_civil 2026 1 2, [enrich due_early (civil 2026 1 2 10 0 0)]);
      (days_from_civil 2026 1 4,
       [enrich due_morning (civil 2026 1 4 9 0 0);
        enrich due_inside (civil 2026 1 4 11 59 59)]) ].
Proof. vm_compute. reflexivity. Qed.

End ListingFacts.

(** ** The file name of the study guide, and the quiz collector on samples *)

Module GuideFacts.
Import PyStr Datetime Planner StudyGuide Policy Examples Messages Guide Terms
       Samples PyStrFacts CuratorMore.

Lemma is_word_not_space (c : ascii) : is_word c = true -> is_space c = false.
Proof. destruct c as [[] [] [] [] [] [] [] []]; done. Qed.

Lemma is_word_not_hyphen (c : ascii) : is_word c = true -> c <> "-"%char.
Proof. intros Hc ->. done. Qed.

Lemma drop_unsafe_chars (s : string) :
  Forall (fun c => is_word c || is_space c || bool_decide (c = "-"%char) = true)
         (chars (drop_unsafe s)).
Proof.
  induction s as [|c s IH]; simpl; [constructor|].
  destruct (is_word c || is_space c || bool_decide (c = "-"%char)) eqn:Hc;
    [|done]. simpl. by constructor.
Qed.

Lemma hyphenate_chars (s : string) (in_run : bool) :
  Forall (fun c => is_word c || is_space c || bool_decide (c = "-"%char) = true)
         (chars s) ->
  Forall (fun c => filename_char c = true) (chars (hyphenate in_run s)).
Proof.
  revert in_run. induction s as [|c s IH]; intros in_run Hs; simpl; [constructor|].
  apply Forall_cons in Hs as [Hc Hs].
  destruct (bool_decide (c = "-"%char) || is_space c) eqn:Hrun.
  - destruct in_run; [by apply IH|]. simpl. constructor; [done|by apply IH].
  - simpl. constructor; [|by apply IH].
    apply orb_false_iff in Hrun as [Hh Hsp]. unfold filename_char.
    rewrite Hh, Hsp, !orb_false_r in *. by rewrite Hc.
Qed.

Lemma hyphenate_no_double (s : string) (in_run : bool) :
  double_hyphen (hyphenate in_run s) = false
  /\ (in_run = true -> no_leading_hyphen (hyphenate in_run s)).
Proof.
  revert in_run. induction s as [|c s IH]; intros in_run; simpl; [done|].
  destruct (bool_decide (c = "-"%char) || is_space c) eqn:Hrun.
  - destruct in_run; [apply IH|]. destruct (IH true) as [Hd Hh].
    split; [|done]. simpl. rewrite Hd, orb_false_r.
    specialize (Hh eq_refl). destruct (hyphenate true s) as [|d t]; [done|].
    simpl in Hh. by rewrite bool_decide_eq_false_2.
  - apply orb_false_iff in Hrun as [Hh Hsp]. destruct (IH false) as [Hd _].
    split.
    + simpl. by rewrite Hh, Hd.
    + intros _. simpl. by apply bool_decide_eq_false in Hh.
Qed.

(** X22.  For a name of ASCII characters, the file-name stem of the study
    guide consists of letters, digits, underscores and hyphens only, and
    never has two hyphens in a row. *)
Theorem safe_name_is_filename_safe (name : string) :
  ascii_text name ->
  Forall (fun c => filename_char c = true) (chars (safe_name name))
  /\ double_hyphen (safe_name name) = false.
Proof.
  intros _. unfold safe_name. split.
  - apply hyphenate_chars, drop_unsafe_chars.
  - apply hyphenate_no_double.
Qed.

Lemma safe_name_is_filename_safe_witness :
  Forall (fun c => filename_char c = true)
         (chars (safe_name "Midterm #1: Ch. 1-3 -- review!"))
  /\ double_hyphen (safe_name "Midterm #1: Ch. 1-3 -- review!") = false.
Proof.
  apply (safe_name_is_filename_safe "Midterm #1: Ch. 1-3 -- review!").
  repeat constructor.
Defined.

Lemma drop_unsafe_fixed (s : string) :
  Forall (fun c => filename_char c = true) (chars s) -> drop_unsafe s = s.
Proof.
  induction s as [|c s IH]; simpl; [done|].
  intros [Hc Hs]%Forall_cons. rewrite (IH Hs).
  unfold filename_char in Hc. apply orb_true_iff in Hc as [-> | ->]; [done|].
  by rewrite orb_true_r.
Qed.

Lemma hyphenate_fixed (s : string) (in_run : bool) :
  Forall (fun c => filename_char c = true) (chars s) ->
  double_hyphen s = false ->
  (in_run = true -> no_leading_hyphen s) ->
  hyphenate in_run s = s.
Proof.
  revert in_run. induction s as [|c s IH]; intros in_run Hs Hd Hh; [done|].
  simpl in Hs, Hd. apply Forall_cons in Hs as [Hc Hs].
  apply orb_false_iff in Hd as [Hcd Hd]. simpl.
  destruct (bool_decide (c = "-"%char)) eqn:Hhy; simpl.
  - apply bool_decide_eq_true in Hhy as ->. destruct in_run.
    + by destruct (Hh eq_refl).
    + f_equal. apply IH; [done|done|]. intros _.
      destruct s as [|d s]; [done|]. simpl in *.
      by apply bool_decide_eq_false in Hcd.
  - unfold filename_char in Hc. rewrite Hhy, orb_false_r in Hc.
    rewrite (is_word_not_space _ Hc). f_equal. by apply IH.
Qed.

(** X23.  Sanitising is idempotent: the stem of a stem is the stem
    itself. *)
Theorem safe_name_idempotent (name : string) :
  safe_name (safe_name name) = safe_name name.
Proof.
  assert (Forall (fun c => filename_char c = true) (chars (safe_name name))) as Hc
    by apply hyphenate_chars, drop_unsafe_chars.
  destruct (hyphenate_no_double (drop_unsafe name) false) as [Hd _].
  unfold safe_name at 1. rewrite drop_unsafe_fixed by done.
  by apply hyphenate_fixed.
Qed.

(** *** The quiz collector on samples *)

Lemma quiz_after_exam_skipped_witness :
  get_quiz_questions (L := cpython)
    (quiz_site ([quiz "Quiz 1" (Some "2026-03-10T07:00:00Z") 1]
                ++ quiz "Quiz 9" (Some "2026-03-25T07:00:00Z") 9 :: []))
    exam_deadline
  = get_quiz_questions (L := cpython)
      (with_quizzes
         (quiz_site ([quiz "Quiz 1" (Some "2026-03-10T07:00:00Z") 1]
                     ++ quiz "Quiz 9" (Some "2026-03-25T07:00:00Z") 9 :: []))
         ([quiz "Quiz 1" (Some "2026-03-10T07:00:00Z") 1] ++ []))
      exam_deadline.
Proof.
  apply (quiz_after_exam_skipped (L := cpython) _ exam_deadline
           [quiz "Quiz 1" (Some "2026-03-10T07:00:00Z") 1]
           (quiz "Quiz 9" (Some "2026-03-25T07:00:00Z") 9) []
           "2026-03-25T07:00:00Z" (civil 2026 3 25 0 0 0)).
  - reflexivity.
  - reflexivity.
  - reflexivity.
  - vm_compute. reflexivity.
  - vm_compute. discriminate.
Defined.

Lemma quiz_with_unreadable_date_is_kept_witness :
  get_quiz_questions (L := cpython)
    (quiz_site ([] ++ quiz "Quiz 2" (Some "next week") 2 :: []))
    exam_deadline
  = get_quiz_questions (L := cpython)
      (with_quizzes
         (quiz_site ([] ++ quiz "Quiz 2" (Some "next week") 2 :: []))
         ([] ++ undated (quiz "Quiz 2" (Some "next week") 2) :: []))
      exam_deadline.
Proof.
  apply (quiz_with_unreadable_date_is_kept (L := cpython) _ exam_deadline
           [] (quiz "Quiz 2" (Some "next week") 2) [] "next week");
    reflexivity.
Defined.

Lemma quiz_entries_come_from_kept_quizzes_witness :
  nonempty "Define elasticity." = true
  /\ exists quizzes q,
       quizzes_response (quiz_site [quiz "Quiz 2" (Some "next week") 2])
       = Reply 200 quizzes
       /\ q ∈ quizzes
       /\ quiz_skipped (L := cpython) exam_deadline q = false
       /\ "Quiz 2" = default "Quiz" (quiz_title q).
Proof.
  apply (quiz_entries_come_from_kept_quizzes (L := cpython)
           (quiz_site [quiz "Quiz 2" (Some "next week") 2]) exam_deadline
           {| qq_quiz := "Quiz 2"; qq_question := "Define elasticity.";
              qq_type := "essay_question"; qq_attempt := 1 |}).
  vm_compute. left.
Defined.

End GuideFacts.
